(** * IS211 Assignment 2: a CSV person table and its lookup loop

    Shallow embedding of [assignment2.py] and the properties of its parser
    ([processData]), its printer ([displayPerson]) and the prompt loop of
    [main].

    Conventions of the embedding.
    - A Python [str] is a Rocq [string]: a sequence of code points below 256.
      Every table of the Python runtime used below (line boundaries, white
      space, decimal digits) is the restriction of the Unicode table to
      these code points.
    - A Python [int] is a [Z].
    - A Python [dict] with [str] keys is a [gmap string _].
    - Effects are explicit: a computation returns the events it emitted (log
      entries, prompts, printed lines) together with its value or the
      exception it raised. *)

From Stdlib Require Import ZArith NArith String Ascii List Lia.
From Stdlib Require Import Decimal DecimalFacts DecimalPos DecimalZ.
From Stdlib Require Import DecimalString.
From stdpp Require Import gmap strings list fin_maps.

Local Open Scope string_scope.
Local Open Scope list_scope.
Local Open Scope Z_scope.

(** ** Exceptions, events and the computation monad *)

(** The exception classes the program can meet. [CsvError] is [csv.Error]. *)
Inductive exn : Type :=
| ValueError
| IndexError
| StopIteration
| CsvError
| EOFError.

(** [type(e).__name__] *)
Definition exn_name (e : exn) : string :=
  match e with
  | ValueError => "ValueError"
  | IndexError => "IndexError"
  | StopIteration => "StopIteration"
  | CsvError => "Error"
  | EOFError => "EOFError"
  end.

Definition exn_eqb (a b : exn) : bool :=
  match a, b with
  | ValueError, ValueError | IndexError, IndexError
  | StopIteration, StopIteration | CsvError, CsvError
  | EOFError, EOFError => true
  | _, _ => false
  end.

Inductive result (A : Type) : Type :=
| Return (a : A)
| Raise (e : exn).
Arguments Return {A} a.
Arguments Raise {A} e.

(** What the program does to the outside world, in order:
    [Log m] is [logging.error(m)], [Prompt t] is the prompt written by
    [input(t)], [Print l] is [print(l)]. *)
Inductive event : Type :=
| Log (message : string)
| Prompt (text : string)
| Print (line : string).

Definition M (A : Type) : Type := (list event * result A)%type.

Definition ret {A} (a : A) : M A := ([], Return a).
Definition raise {A} (e : exn) : M A := ([], Raise e).
Definition emit (ev : event) : M unit := ([ev], Return tt).
Definition lift {A} (r : result A) : M A := ([], r).

Definition bind {A B} (m : M A) (k : A -> M B) : M B :=
  match m with
  | (t, Return a) => let '(t', r) := k a in (t ++ t', r)
  | (t, Raise e) => (t, Raise e)
  end.

Notation "'let*' x ':=' m 'in' k" := (bind m (fun x => k))
  (at level 10, x name, m at level 100, k at level 200).
Notation "m ';;;' k" := (bind m (fun _ => k))
  (at level 100, k at level 200, right associativity).

(** [try: body / except cls: handler]: only an exception of class [cls] is
    caught; what the body emitted before raising stays emitted. *)
Definition try_except {A} (body : M A) (cls : exn) (handler : M A) : M A :=
  match body with
  | (t, Raise e) =>
      if exn_eqb e cls then let '(t', r) := handler in (t ++ t', r)
      else (t, Raise e)
  | returned => returned
  end.

Definition trace {A} (m : M A) : list event := fst m.
Definition outcome {A} (m : M A) : result A := snd m.

(** ** Characters *)

Definition ord (c : ascii) : N := N_of_ascii c.

Definition in_range (lo hi : N) (c : ascii) : bool :=
  ((lo <=? ord c) && (ord c <=? hi))%N.

Definition is_char (x c : ascii) : bool := Ascii.eqb c x.

(** [\d] and [Py_UNICODE_TODECIMAL(c) >= 0]: below 256 the only decimal
    digits are ['0'] to ['9']. *)
Definition is_digit (c : ascii) : bool := in_range 48 57 c.

Definition digit_value (c : ascii) : Z := Z.of_N (ord c) - 48.

(** [Py_ISSPACE]: tab, line feed, vertical tab, form feed, carriage return,
    space. *)
Definition Py_ISSPACE (c : ascii) : bool :=
  in_range 9 13 c || is_char " " c.

(** [Py_UNICODE_ISSPACE] below 256: the above, the separators 0x1c to 0x1f,
    NEL (0x85) and the no-break space (0xa0). *)
Definition Py_UNICODE_ISSPACE (c : ascii) : bool :=
  in_range 9 13 c || in_range 28 31 c || is_char " " c
  || (ord c =? 133)%N || (ord c =? 160)%N.

(** ** [str.splitlines()] *)

(** Line boundaries below 256: LF, CR, VT, FF, FS, GS, RS, NEL. *)
Definition is_linebreak (c : ascii) : bool :=
  in_range 10 13 c || in_range 28 30 c || (ord c =? 133)%N.

(** [splitlines_from cur s]: [cur] is the part of the current line already
    read. A CR followed by LF is one boundary; a boundary at the very end
    opens no further line. *)
Fixpoint splitlines_from (cur s : string) : list string :=
  match s with
  | EmptyString => match cur with EmptyString => [] | _ => [cur] end
  | String c rest =>
      if is_linebreak c then
        if (ord c =? 13)%N then
          match rest with
          | String c' rest' =>
              if (ord c' =? 10)%N then cur :: splitlines_from "" rest'
              else cur :: splitlines_from "" rest
          | EmptyString => cur :: splitlines_from "" rest
          end
        else cur :: splitlines_from "" rest
      else splitlines_from (cur +:+ String c "") rest
  end.

Definition splitlines (s : string) : list string := splitlines_from "" s.

(** ** [int(s)] and [str(n)] *)

(** [_PyUnicode_TransformDecimalAndSpaceToASCII]: an ASCII string is kept;
    otherwise white space becomes a space and the copy stops with ['?'] at
    the first character that is neither ASCII, white space nor a decimal
    digit. *)
Fixpoint transform_chars (s : string) : string :=
  match s with
  | EmptyString => ""
  | String c rest =>
      if (ord c <? 127)%N then String c (transform_chars rest)
      else if Py_UNICODE_ISSPACE c then String " " (transform_chars rest)
      else "?"
  end.

Fixpoint is_ascii_string (s : string) : bool :=
  match s with
  | EmptyString => true
  | String c rest => (ord c <? 128)%N && is_ascii_string rest
  end.

Definition TransformDecimalAndSpaceToASCII (s : string) : string :=
  if is_ascii_string s then s else transform_chars s.

Fixpoint skip_spaces (s : string) : string :=
  match s with
  | String c rest => if Py_ISSPACE c then skip_spaces rest else s
  | EmptyString => ""
  end.

(** [sys.get_int_max_str_digits()], the default of CPython 3.11 and later. *)
Definition int_max_str_digits : N := 4300.

(** The digit scan of [long_from_string_base] for base 10: digits and single
    underscores between digits. [prev] is the previous character, [value]
    the number read so far, [digits] the count of digit characters. The
    result is the number, the count and the unread rest; [None] is the
    syntax error. *)
Fixpoint scan_digits (prev : ascii) (s : string) (value : Z) (digits : N)
  : option (Z * N * string) :=
  match s with
  | String c rest =>
      if is_digit c then
        scan_digits c rest (10 * value + digit_value c) (digits + 1)%N
      else if is_char "_" c then
        if is_char "_" prev then None
        else scan_digits c rest value digits
      else if is_char "_" prev then None
      else Some (value, digits, s)
  | EmptyString =>
      if is_char "_" prev then None else Some (value, digits, s)
  end.

(** [PyLong_FromString(s, 10)] on the transformed buffer, followed by the
    test of [PyLong_FromUnicodeObject] that the whole buffer was read (an
    embedded NUL is an unread character like any other). *)
Definition int_ (s : string) : result Z :=
  let buf := skip_spaces (TransformDecimalAndSpaceToASCII s) in
  let '(negative, buf) :=
    match buf with
    | String "+" rest => (false, rest)
    | String "-" rest => (true, rest)
    | _ => (false, buf)
    end in
  match buf with
  | String "_" _ => Raise ValueError
  | _ =>
      match scan_digits Ascii.zero buf 0 0%N with
      | None => Raise ValueError
      | Some (value, digits, rest) =>
          if (digits =? 0)%N then Raise ValueError
          else if (int_max_str_digits <? digits)%N then Raise ValueError
          else
            match skip_spaces rest with
            | EmptyString => Return (if negative then - value else value)
            | _ => Raise ValueError
            end
      end
  end.

(** [str(n)] for an [int]: decimal digits, ['-'] in front of a negative
    number. CPython refuses to render an integer of more than
    [int_max_str_digits] digits; the integers this program renders are the
    lookup keys, which [int_] accepted and which are within the limit
    (lemma [int_str_within_limit]), the line numbers and the date fields. *)
Definition str (n : Z) : string := NilEmpty.string_of_int (Z.to_int n).

(** ** [csv.reader] with the default dialect

    The dialect is [excel]: a comma as delimiter, the double quote as quote
    character, doubled quotes inside a quoted field, no escape character,
    no skipping of initial spaces, not strict, minimal quoting. The states
    and the transitions are those of [parse_process_char] in CPython's
    [_csv.c] (3.11 and later, where a NUL is a character like any other);
    the two escape states are unreachable without an escape character. *)

Inductive ParserState : Type :=
| START_RECORD
| START_FIELD
| IN_FIELD
| IN_QUOTED_FIELD
| QUOTE_IN_QUOTED_FIELD
| EAT_CRNL.

Definition ParserState_eqb (a b : ParserState) : bool :=
  match a, b with
  | START_RECORD, START_RECORD | START_FIELD, START_FIELD
  | IN_FIELD, IN_FIELD | IN_QUOTED_FIELD, IN_QUOTED_FIELD
  | QUOTE_IN_QUOTED_FIELD, QUOTE_IN_QUOTED_FIELD
  | EAT_CRNL, EAT_CRNL => true
  | _, _ => false
  end.

Definition delimiter : ascii := ",".
Definition quotechar : ascii := ascii_of_N 34.

(** The reader object: the fields of the record being read, the field being
    read ([field_len] is its length) and the state. *)
Record ReaderObj : Type := mkReader {
  fields : list string;
  field : string;
  state : ParserState
}.

(** [csv.field_size_limit()] *)
Definition field_limit : N := 131072.

Definition parse_reset : ReaderObj :=
  {| fields := []; field := ""; state := START_RECORD |}.

Definition parse_save_field (self : ReaderObj) : ReaderObj :=
  {| fields := fields self ++ [field self]; field := ""; state := state self |}.

Definition parse_add_char (self : ReaderObj) (c : ascii) : result ReaderObj :=
  if (field_limit <=? N.of_nat (String.length (field self)))%N
  then Raise CsvError
  else Return {| fields := fields self;
                 field := field self +:+ String c "";
                 state := state self |}.

Definition set_state (st : ParserState) (self : ReaderObj) : ReaderObj :=
  {| fields := fields self; field := field self; state := st |}.

Definition result_map {A B} (f : A -> B) (r : result A) : result B :=
  match r with
  | Return a => Return (f a)
  | Raise e => Raise e
  end.

Definition is_newline (c : ascii) : bool :=
  (ord c =? 10)%N || (ord c =? 13)%N.

(** The state a record ends in: [START_RECORD] at the end of the line
    ([None]), [EAT_CRNL] at a newline character. *)
Definition after_eol (c : option ascii) : ParserState :=
  match c with None => START_RECORD | Some _ => EAT_CRNL end.

Definition is_eol_or_newline (c : option ascii) : bool :=
  match c with None => true | Some ch => is_newline ch end.

Definition is_some_char (x : ascii) (c : option ascii) : bool :=
  match c with None => false | Some ch => is_char x ch end.

Definition char_or_nul (c : option ascii) : ascii :=
  match c with None => Ascii.zero | Some ch => ch end.

(** [case START_FIELD] *)
Definition process_START_FIELD (self : ReaderObj) (c : option ascii)
  : result ReaderObj :=
  if is_eol_or_newline c then
    Return (set_state (after_eol c) (parse_save_field self))
  else if is_some_char quotechar c then
    Return (set_state IN_QUOTED_FIELD self)
  else if is_some_char delimiter c then
    Return (parse_save_field self)
  else
    result_map (set_state IN_FIELD) (parse_add_char self (char_or_nul c)).

(** [parse_process_char(self, c)]; [None] is the end-of-line mark [EOL] sent
    after the last character of every line. *)
Definition parse_process_char (self : ReaderObj) (c : option ascii)
  : result ReaderObj :=
  match state self with
  | START_RECORD =>
      match c with
      | None => Return self
      | Some ch =>
          if is_newline ch then Return (set_state EAT_CRNL self)
          else process_START_FIELD (set_state START_FIELD self) c
      end
  | START_FIELD => process_START_FIELD self c
  | IN_FIELD =>
      if is_eol_or_newline c then
        Return (set_state (after_eol c) (parse_save_field self))
      else if is_some_char delimiter c then
        Return (set_state START_FIELD (parse_save_field self))
      else parse_add_char self (char_or_nul c)
  | IN_QUOTED_FIELD =>
      match c with
      | None => Return self
      | Some ch =>
          if is_char quotechar ch
          then Return (set_state QUOTE_IN_QUOTED_FIELD self)
          else parse_add_char self ch
      end
  | QUOTE_IN_QUOTED_FIELD =>
      if is_some_char quotechar c then
        result_map (set_state IN_QUOTED_FIELD)
                   (parse_add_char self (char_or_nul c))
      else if is_some_char delimiter c then
        Return (set_state START_FIELD (parse_save_field self))
      else if is_eol_or_newline c then
        Return (set_state (after_eol c) (parse_save_field self))
      else
        result_map (set_state IN_FIELD) (parse_add_char self (char_or_nul c))
  | EAT_CRNL =>
      match c with
      | None => Return (set_state START_RECORD self)
      | Some ch => if is_newline ch then Return self else Raise CsvError
      end
  end.

(** One line of input: its characters, then [EOL]. *)
Fixpoint process_line (self : ReaderObj) (line : string) : result ReaderObj :=
  match line with
  | EmptyString => parse_process_char self None
  | String c rest =>
      match parse_process_char self (Some c) with
      | Return self' => process_line self' rest
      | Raise e => Raise e
      end
  end.

(** The iteration of the reader over its lines, as the rows it yields and
    the exception, if any, that the request for the next row raises after
    them. [Reader_iternext] reads lines until the state is [START_RECORD]
    again and resets the parser before each row; at the end of the input a
    record left open inside a quoted field is yielded as it stands. *)
Fixpoint reader_rows (self : ReaderObj) (lines : list string)
  : list (list string) * option exn :=
  match lines with
  | [] =>
      if negb (String.length (field self) =? 0)%nat
         || ParserState_eqb (state self) IN_QUOTED_FIELD
      then ([fields (parse_save_field self)], None)
      else ([], None)
  | line :: rest =>
      match process_line self line with
      | Raise e => ([], Some e)
      | Return self' =>
          if ParserState_eqb (state self') START_RECORD then
            let '(rows, e) := reader_rows parse_reset rest in
            (fields self' :: rows, e)
          else reader_rows self' rest
      end
  end.

Definition csv_reader (lines : list string) : list (list string) * option exn :=
  reader_rows parse_reset lines.

(** ** [datetime] *)

(** A [datetime] built by [strptime] from a format without time directives:
    the time of day is midnight, and there is no time zone. *)
Record datetime : Type := mkDate {
  year : Z;
  month : Z;
  day : Z
}.

Definition is_leap (y : Z) : bool :=
  (y mod 4 =? 0) && (negb (y mod 100 =? 0) || (y mod 400 =? 0)).

Definition days_in_month (y m : Z) : Z :=
  if m =? 2 then (if is_leap y then 29 else 28)
  else if (m =? 4) || (m =? 6) || (m =? 9) || (m =? 11) then 30
  else 31.

(** The range checks of the [date] constructor ([MINYEAR = 1],
    [MAXYEAR = 9999]). *)
Definition datetime_new (y m d : Z) : result datetime :=
  if (1 <=? y) && (y <=? 9999)
     && (1 <=? m) && (m <=? 12)
     && (1 <=? d) && (d <=? days_in_month y m)
  then Return (mkDate y m d)
  else Raise ValueError.

(** *** The regular expression of the format ['%d/%m/%Y']

    [_strptime] compiles the format to
    [(?P<d>3[0-1]|[1-2]\d|0[1-9]|[1-9]| [1-9])], a slash,
    [(?P<m>1[0-2]|0[1-9]|[1-9])], a slash and [(?P<Y>\d\d\d\d)],
    and matches it at the start of the text. Alternatives are tried from
    left to right and the first way through the whole pattern wins. *)
Inductive regex : Type :=
| Chr (p : ascii -> bool)
| Seq (r1 r2 : regex)
| Alt (r1 r2 : regex).

(** [rmatch r s k]: the first way of matching [r] at the start of [s] for
    which the continuation [k], given the matched text and the rest,
    succeeds. *)
Fixpoint rmatch {A} (r : regex) (s : string)
  (k : string -> string -> option A) : option A :=
  match r with
  | Chr p =>
      match s with
      | String c rest => if p c then k (String c "") rest else None
      | EmptyString => None
      end
  | Seq r1 r2 =>
      rmatch r1 s (fun m1 s1 => rmatch r2 s1 (fun m2 s2 => k (m1 +:+ m2) s2))
  | Alt r1 r2 =>
      match rmatch r1 s k with
      | Some x => Some x
      | None => rmatch r2 s k
      end
  end.

Definition re_d : regex :=
  Alt (Seq (Chr (is_char "3")) (Chr (in_range 48 49)))
 (Alt (Seq (Chr (in_range 49 50)) (Chr is_digit))
 (Alt (Seq (Chr (is_char "0")) (Chr (in_range 49 57)))
 (Alt (Chr (in_range 49 57))
      (Seq (Chr (is_char " ")) (Chr (in_range 49 57)))))).

Definition re_m : regex :=
  Alt (Seq (Chr (is_char "1")) (Chr (in_range 48 50)))
 (Alt (Seq (Chr (is_char "0")) (Chr (in_range 49 57)))
      (Chr (in_range 49 57))).

Definition re_Y : regex :=
  Seq (Chr is_digit) (Seq (Chr is_digit) (Seq (Chr is_digit) (Chr is_digit))).

Definition re_slash : regex := Chr (is_char "/").

(** [format_regex.match(data_string)]: the groups [d], [m], [Y] and the
    text after the match. *)
Definition match_dmY (data_string : string)
  : option (string * string * string * string) :=
  rmatch re_d data_string (fun d s1 =>
  rmatch re_slash s1 (fun _ s2 =>
  rmatch re_m s2 (fun m s3 =>
  rmatch re_slash s3 (fun _ s4 =>
  rmatch re_Y s4 (fun Y rest => Some (d, m, Y, rest)))))).

Definition result_bind {A B} (r : result A) (k : A -> result B) : result B :=
  match r with
  | Return a => k a
  | Raise e => Raise e
  end.

(** [datetime.strptime(data_string, '%d/%m/%Y')]: no match, text left after
    the match and a date that does not exist all raise [ValueError]. *)
Definition strptime (data_string : string) : result datetime :=
  match match_dmY data_string with
  | None => Raise ValueError
  | Some (d, m, Y, rest) =>
      match rest with
      | String _ _ => Raise ValueError
      | EmptyString =>
          result_bind (int_ Y) (fun y =>
          result_bind (int_ m) (fun mo =>
          result_bind (int_ d) (fun da =>
          datetime_new y mo da)))
      end
  end.

(** [s.zfill(width)] for a [str] without sign. *)
Definition zfill (width : nat) (s : string) : string :=
  string_of_list_ascii (repeat "0"%char (width - String.length s)) +:+ s.

(** [birthday.strftime('%Y-%m-%d')] as CPython 3.11 on glibc renders it:
    [%Y] is the year in decimal without padding (987 prints as 987), [%m]
    and [%d] are the month and the day on two digits. *)
Definition strftime (d : datetime) : string :=
  str (year d) +:+ "-" +:+ zfill 2 (str (month d)) +:+ "-"
  +:+ zfill 2 (str (day d)).

(** ** The program *)

(** A record of the table: [(name, birthday)]. *)
Abbreviation person := (string * datetime)%type.

(** [row[i]]: an index past the end raises [IndexError]. *)
Definition getitem (row : list string) (i : nat) : M string :=
  match row !! i with
  | Some x => ret x
  | None => raise IndexError
  end.

(** The message of the log entry for a row whose date does not parse:
    [f"Error processing line #{line_num} for ID #{id_}: {row[2]}"]. *)
Definition date_error_message (line_num : Z) (id_ text : string) : string :=
  "Error processing line #" +:+ str line_num +:+ " for ID #" +:+ id_
  +:+ ": " +:+ text.

(** The body of the [for] loop of [processData]. The [try] statement yields
    [Some birthday], or [None] when its handler ends with [continue]. *)
Definition processRow (line_num : Z) (row : list string)
  (data_dict : gmap string person) : M (gmap string person) :=
  let* id_ := getitem row 0 in
  let* name := getitem row 1 in
  let* parsed :=
    try_except
      (let* text := getitem row 2 in
       let* birthday := lift (strptime text) in
       ret (Some birthday))
      ValueError
      (let* text := getitem row 2 in
       emit (Log (date_error_message line_num id_ text)) ;;;
       ret None) in
  match parsed with
  | None => ret data_dict
  | Some birthday => ret (<[id_ := (name, birthday)]> data_dict)
  end.

(** [for line_num, row in enumerate(rows, start=line_num)] *)
Fixpoint processRows (line_num : Z) (rows : list (list string))
  (data_dict : gmap string person) : M (gmap string person) :=
  match rows with
  | [] => ret data_dict
  | row :: rest =>
      let* data_dict' := processRow line_num row data_dict in
      processRows (line_num + 1) rest data_dict'
  end.

(** [processData(csvData)]. [next(reader)] takes the header: without a row
    it raises [StopIteration], or the error of the reader. An error of the
    reader after some rows is raised once those rows have been processed. *)
Definition processData (csvData : string) : M (gmap string person) :=
  let '(rows, failure) := csv_reader (splitlines csvData) in
  match rows with
  | [] =>
      match failure with
      | Some e => raise e
      | None => raise StopIteration
      end
  | _header :: data =>
      let* data_dict := processRows 1 data ∅ in
      match failure with
      | Some e => raise e
      | None => ret data_dict
      end
  end.

(** [displayPerson(id, personData)]. A stored record is a pair, which is
    never falsy, so [if person] is the test that the key is present. *)
Definition displayPerson (id : string) (personData : gmap string person)
  : M unit :=
  match personData !! id with
  | Some (name, birthday) =>
      emit (Print ("Person #" +:+ id +:+ " is " +:+ name
                   +:+ " with a birthday of " +:+ strftime birthday +:+ "."))
  | None => emit (Print ("No person found with ID #" +:+ id +:+ "."))
  end.

(** The two states of the prompt loop of [main]. *)
Inductive loop_state : Type :=
| Prompting
| Terminated.

Definition prompt_text : string := "Enter an ID to look up (or 0 to exit): ".

(** One turn of the [while True] loop of [main] on the line [user_input]
    that [input] returned: [Terminated] is [break]. *)
Definition main_loop_body (personData : gmap string person)
  (user_input : string) : M loop_state :=
  try_except
    (let* user_id := lift (int_ user_input) in
     if user_id <=? 0 then
       emit (Print "Exiting the program.") ;;; ret Terminated
     else
       displayPerson (str user_id) personData ;;; ret Prompting)
    ValueError
    (emit (Print "Please enter a valid integer ID.") ;;; ret Prompting).

(** The loop of [main] over the lines of the standard input. [input] writes
    the prompt, and raises [EOFError], which nothing catches, when the input
    is exhausted. *)
Fixpoint main_loop (personData : gmap string person) (stdin : list string)
  : M unit :=
  match stdin with
  | [] => emit (Prompt prompt_text) ;;; raise EOFError
  | user_input :: rest =>
      emit (Prompt prompt_text) ;;;
      let* st := main_loop_body personData user_input in
      match st with
      | Terminated => ret tt
      | Prompting => main_loop personData rest
      end
  end.

(** The log entries of a trace. *)
Definition logged (t : list event) : list string :=
  omap (fun ev => match ev with Log m => Some m | _ => None end) t.

(** ** Vocabulary of the properties *)

(** The record a data row stands for: the row has at least three fields and
    its third field is a date that [strptime] accepts. *)
Definition row_record (row : list string) : option (string * person) :=
  match row with
  | id_ :: name :: text :: _ =>
      match strptime text with
      | Return birthday => Some (id_, (name, birthday))
      | Raise _ => None
      end
  | _ => None
  end.

(** What a row with three fields does to the table and to the log, as pure
    functions: the reference against which [processRow] and [processRows]
    are described. *)
Definition store_row (data_dict : gmap string person) (row : list string)
  : gmap string person :=
  match row_record row with
  | Some (id_, p) => <[id_ := p]> data_dict
  | None => data_dict
  end.

Definition rows_table (rows : list (list string))
  (data_dict : gmap string person) : gmap string person :=
  foldl store_row data_dict rows.

Definition row_log (line_num : Z) (row : list string) : list event :=
  match row with
  | id_ :: _ :: text :: _ =>
      match strptime text with
      | Return _ => []
      | Raise _ => [Log (date_error_message line_num id_ text)]
      end
  | _ => []
  end.

Fixpoint rows_log (line_num : Z) (rows : list (list string)) : list event :=
  match rows with
  | [] => []
  | row :: rest => row_log line_num row ++ rows_log (line_num + 1) rest
  end.

(** The identifier field of a row, when the row has one. *)
Definition row_id (row : list string) : option string := row !! 0%nat.

Definition has_three_fields (row : list string) : bool :=
  (3 <=? length row)%nat.

(** A log entry is about line [n] when it starts as the entries of
    [processData] for that line start. *)
Definition mentions_line (n : Z) (message : string) : bool :=
  String.prefix ("Error processing line #" +:+ str n +:+ " ") message.

(** The decimal strings that [str] produces for positive integers: a digit
    from 1 to 9, then digits. *)
Definition is_canonical_id (s : string) : bool :=
  match s with
  | String c rest =>
      in_range 49 57 c && forallb is_digit (list_ascii_of_string rest)
  | EmptyString => false
  end.

(** A reader of the ISO form [YYYY-MM-DD]: four digits, a dash, two digits,
    a dash, two digits, and the date they denote. *)
Definition iso_date_of (s : string) : option datetime :=
  match list_ascii_of_string s with
  | [y1; y2; y3; y4; sep1; m1; m2; sep2; n1; n2] =>
      if forallb is_digit [y1; y2; y3; y4; m1; m2; n1; n2]
         && is_char "-" sep1 && is_char "-" sep2
      then Some (mkDate
                   (1000 * digit_value y1 + 100 * digit_value y2
                    + 10 * digit_value y3 + digit_value y4)
                   (10 * digit_value m1 + digit_value m2)
                   (10 * digit_value n1 + digit_value n2))
      else None
  | _ => None
  end.

(** A string without a space. *)
Definition no_space (s : string) : Prop :=
  forallb (fun c => negb (is_char " " c)) (list_ascii_of_string s) = true.

(** A log entry of [processData] for a line numbered from [lo] up to, and
    not including, [hi]. *)
Definition entry_between (lo hi : Z) (ev : event) : Prop :=
  exists j id_ text,
    ev = Log (date_error_message j id_ text) /\ lo <= j < hi.

(** The number written by a list of digits. *)
Definition digits_value (l : list ascii) : Z :=
  fold_left (fun acc c => 10 * acc + digit_value c) l 0.

(** [n] rendered on [w] characters is [w] digits that write [n]. *)
Definition check_pad (w : nat) (n : Z) : bool :=
  let l := list_ascii_of_string (zfill w (str n)) in
  (length l =? w)%nat && forallb is_digit l && (digits_value l =? n).

(** Sample inputs. [LF] is the line feed. *)
Definition LF : string := String (ascii_of_N 10) "".

(** The input of the end-to-end example of the specification. *)
Definition sample_csv : string :=
  "id,name,birthday" +:+ LF +:+ "1,Alice,15/06/1990" +:+ LF
  +:+ "2,Bob,31/13/2000" +:+ LF.

Definition sample_header : list string := ["id"; "name"; "birthday"].

(** Two valid rows with distinct identifiers. *)
Definition valid_csv : string :=
  "id,name,birthday" +:+ LF +:+ "1,Alice,15/06/1990" +:+ LF
  +:+ "2,Bob,29/02/2000" +:+ LF.

(** Identifier 1 twice, with another row after the second occurrence. *)
Definition duplicate_csv : string :=
  "id,name,birthday" +:+ LF +:+ "1,Alice,15/06/1990" +:+ LF
  +:+ "1,Alicia,16/07/1991" +:+ LF +:+ "2,Bob,29/02/2000" +:+ LF.

(** A row with a month 13 between two valid rows. *)
Definition bad_date_csv : string :=
  "id,name,birthday" +:+ LF +:+ "1,Alice,15/06/1990" +:+ LF
  +:+ "2,Bob,31/13/2000" +:+ LF +:+ "3,Carol,29/02/2000" +:+ LF.

(** The table of the end-to-end example. *)
Definition sample_table : gmap string person :=
  {[ "1" := ("Alice", mkDate 1990 6 15) ]}.

(** A row with a year below 1000, and its table. *)
Definition old_csv : string :=
  "id,name,birthday" +:+ LF +:+ "1,Old,02/03/0987" +:+ LF.

Definition old_table : gmap string person :=
  {[ "1" := ("Old", mkDate 987 3 2) ]}.


(** A row with two fields between two rows with three. *)
Definition short_row_csv : string :=
  "id,name,birthday" +:+ LF +:+ "1,Alice,31/13/2000" +:+ LF
  +:+ "2,Bob" +:+ LF +:+ "3,Carol,29/02/2000" +:+ LF.

(** ** The rest of [main]: the download and the failure message *)

(** An exception as the handlers of [downloadData] and [main] use it: its
    class name and [str(e)]. *)
Record py_error : Type := mkError {
  error_class : string;
  error_text : string
}.

(** What [urllib.request.urlopen(url).read().decode('utf-8')] gives for a
    URL: the decoded text, or the exception that [urlopen], [read] or
    [decode] raised. The network is a parameter of the functions that use
    it; its failures are exceptions of the class [Exception]. *)
Inductive fetched : Type :=
| Body (text : string)
| Failed (e : py_error).

(** [downloadData(url)]: the handler logs the URL and the exception, then
    raises the exception again. *)
Definition downloadData (urlopen : string -> fetched) (url : string)
  : list event * fetched :=
  match urlopen url with
  | Body csvData => ([], Body csvData)
  | Failed e =>
      ([Log ("Error downloading data from URL: " +:+ url +:+ " - "
             +:+ error_text e)],
       Failed e)
  end.

(** [str(e)] for the exceptions that leave [processData]: an exhausted
    iterator has no text, an index past the end and a field over the limit
    have fixed texts. [ValueError] never leaves [processData] (lemma
    [processData_raises]) and [EOFError] is raised by [input] only; their
    texts are not used and the empty text stands for them. *)
Definition exn_text (e : exn) : string :=
  match e with
  | StopIteration => ""
  | IndexError => "list index out of range"
  | CsvError => "field larger than field limit (131072)"
  | ValueError => ""
  | EOFError => ""
  end.

(** [main(url)] with the network and the lines of the standard input as
    parameters. The handler of the first [try] catches every [Exception] of
    the download and of the parse, prints it and returns; the prompt loop
    is outside that [try]. *)
Definition main (urlopen : string -> fetched) (url : string)
  (stdin : list string) : M unit :=
  emit (Print ("Running main with URL = " +:+ url +:+ "...")) ;;;
  match downloadData urlopen url with
  | (t, Failed e) =>
      (t ++ [Print ("Failed to process data: " +:+ error_text e)], Return tt)
  | (t, Body csvData) =>
      match processData csvData with
      | (t', Raise e) =>
          (t ++ t' ++ [Print ("Failed to process data: " +:+ exn_text e)],
           Return tt)
      | (t', Return personData) =>
          let '(t'', r) := main_loop personData stdin in
          (t ++ t' ++ t'', r)
      end
  end.

(** ** Further vocabulary *)

(** An input line that ends the prompt loop: [int] reads it as an integer
    at most 0. *)
Definition is_sentinel (line : string) : bool :=
  match int_ line with
  | Return n => n <=? 0
  | Raise _ => false
  end.

(** The lines of the standard input that the prompt loop reads: those up to
    the first sentinel, included. *)
Fixpoint lines_read (stdin : list string) : list string :=
  match stdin with
  | [] => []
  | line :: rest => if is_sentinel line then [line] else line :: lines_read rest
  end.

(** The printed lines and the number of prompts of a trace. *)
Definition printed (t : list event) : list string :=
  omap (fun ev => match ev with Print l => Some l | _ => None end) t.

Definition prompts (t : list event) : nat :=
  length (List.filter
            (fun ev => match ev with Prompt _ => true | _ => false end) t).

Definition is_valid_row (row : list string) : bool :=
  match row_record row with Some _ => true | None => false end.

(** The calendar dates that [datetime] can hold. *)
Definition is_calendar_date (d : datetime) : Prop :=
  1 <= year d <= 9999 /\ 1 <= month d <= 12
  /\ 1 <= day d <= days_in_month (year d) (month d).

(** A line without a line boundary, and a field that needs no quoting: no
    delimiter, no quote character, no line boundary. *)
Definition is_one_line (line : string) : bool :=
  forallb (fun c => negb (is_linebreak c)) (list_ascii_of_string line).

Definition is_plain_field (f : string) : bool :=
  forallb (fun c => negb (is_char delimiter c) && negb (is_char quotechar c)
                    && negb (is_linebreak c))
          (list_ascii_of_string f).

(** [','.join(row)] *)
Fixpoint join_fields (row : list string) : string :=
  match row with
  | [] => ""
  | [f] => f
  | f :: rest => f +:+ "," +:+ join_fields rest
  end.

(** The text whose lines are [lines], each ended by a line feed. *)
Fixpoint unlines (lines : list string) : string :=
  match lines with
  | [] => ""
  | line :: rest => line +:+ LF +:+ unlines rest
  end.

(** The text of a table of plain fields. *)
Definition csv_text (rows : list (list string)) : string :=
  unlines (join_fields <$> rows).

(** The last character of a text is a line boundary. *)
Fixpoint ends_in_linebreak (s : string) : bool :=
  match s with
  | EmptyString => false
  | String c EmptyString => is_linebreak c
  | String _ rest => ends_in_linebreak rest
  end.

(** A network that answers every URL with the same text, or with the same
    failure. *)
Definition serve (csvData : string) : string -> fetched :=
  fun _ => Body csvData.

Definition unreachable : string -> fetched :=
  fun _ => Failed (mkError "URLError" "<urlopen error timed out>").

(** ** Vocabulary of the further properties *)

(** An event that is an entry of the log. *)
Definition is_log (ev : event) : Prop := exists m, ev = Log m.

(** The rows of [valid_csv] in the other order. *)
Definition swapped_csv : string :=
  "id,name,birthday" +:+ LF +:+ "2,Bob,29/02/2000" +:+ LF
  +:+ "1,Alice,15/06/1990" +:+ LF.

(** [self->field_len], and the number of characters of a list of lines. *)
Definition flen (self : ReaderObj) : nat := String.length (field self).

Definition total_length (lines : list string) : nat :=
  sum_list (String.length <$> lines).

(** The reader inside or at the start of an unquoted field. *)
Definition in_plain_state (self : ReaderObj) : Prop :=
  state self = START_RECORD \/ state self = START_FIELD
  \/ state self = IN_FIELD.

(** The reader after the characters of the plain text [f]. *)
Definition feed (self : ReaderObj) (f : string) : ReaderObj :=
  {| fields := fields self;
     field := field self +:+ f;
     state := match f with EmptyString => state self | _ => IN_FIELD end |}.

(** A field that the reader accepts whole. *)
Definition within_limit (f : string) : Prop :=
  (N.of_nat (String.length f) <= field_limit)%N.

(** The head digit of a canonical identifier is not 0. *)
Definition head_nonzero (u : uint) : Prop :=
  match u with
  | Nil | D0 _ => False
  | _ => True
  end.

(** The first line that [main] prints. *)
Definition banner (url : string) : event :=
  Print ("Running main with URL = " +:+ url +:+ "...").

(** * Properties *)

(** ** The runtime model on small inputs *)

Example splitlines_sample :
  splitlines sample_csv
  = ["id,name,birthday"; "1,Alice,15/06/1990"; "2,Bob,31/13/2000"].
Proof. vm_compute. reflexivity. Qed.

Example splitlines_boundaries :
  splitlines ("a" +:+ String (ascii_of_N 13) "" +:+ LF +:+ LF +:+ "b"
              +:+ String (ascii_of_N 13) "" +:+ "c")
  = ["a"; ""; "b"; "c"].
Proof. vm_compute. reflexivity. Qed.

Example int_spellings :
  List.map int_ ["10"; " +1_0 "; "01"; "-0"; "-12"]
  = [Return 10; Return 10; Return 1; Return 0; Return (-12)].
Proof. vm_compute. reflexivity. Qed.

Example int_rejects :
  List.map int_ ["abc"; ""; "+"; "1__0"; "_1"; "1_"; "1 2"; "1.0"; "- 1"]
  = repeat (Raise ValueError) 9.
Proof. vm_compute. reflexivity. Qed.

Example str_samples :
  List.map str [0; 7; -12; 1990] = ["0"; "7"; "-12"; "1990"].
Proof. vm_compute. reflexivity. Qed.

(** A quoted field keeps its comma and loses its quotes; a doubled quote
    inside it is one quote; an empty line is an empty row; a quoted field
    left open runs on into the next line. *)
Example csv_reader_quotes :
  let q := String quotechar "" in
  csv_reader ["a," +:+ q +:+ "b,c" +:+ q +:+ ",d";
              "";
              q +:+ "x" +:+ q +:+ q +:+ "y" +:+ q +:+ ",";
              "1," +:+ q +:+ "open";
              "end" +:+ q +:+ ",2"]
  = ([["a"; "b,c"; "d"]; []; ["x" +:+ q +:+ "y"; ""]; ["1"; "openend"; "2"]],
     None).
Proof. vm_compute. reflexivity. Qed.

Example strptime_accepts :
  List.map strptime ["15/06/1990"; "5/6/1990"; " 5/06/1990"; "29/02/2000"]
  = [Return (mkDate 1990 6 15); Return (mkDate 1990 6 5);
     Return (mkDate 1990 6 5); Return (mkDate 2000 2 29)].
Proof. vm_compute. reflexivity. Qed.

Example strptime_rejects :
  List.map strptime ["31/13/2000"; "29/02/1900"; "31/04/2020"; "1/1/0000";
                     "32/01/2000"; "1/1/20001"; "1/1/200"; "1-1-2000"; "";
                     "10/10/2010 "; "00/12/1999"]
  = repeat (Raise ValueError) 11.
Proof. vm_compute. reflexivity. Qed.

Example strftime_samples :
  List.map strftime
    [mkDate 1990 6 15; mkDate 987 3 2; mkDate 1 1 1; mkDate 9999 12 31]
  = ["1990-06-15"; "987-03-02"; "1-01-01"; "9999-12-31"].
Proof. vm_compute. reflexivity. Qed.

(** ** The runtime model *)

Lemma int_raises (s : string) (e : exn) : int_ s = Raise e -> e = ValueError.
Proof.
  unfold int_. repeat case_match; congruence.
Qed.

Lemma datetime_new_raises (y m d : Z) (e : exn) :
  datetime_new y m d = Raise e -> e = ValueError.
Proof.
  unfold datetime_new. case_match; congruence.
Qed.

Lemma strptime_raises (text : string) (e : exn) :
  strptime text = Raise e -> e = ValueError.
Proof.
  unfold strptime, result_bind.
  repeat case_match; try congruence;
    try (intros [= <-]; eauto using int_raises);
    eauto using datetime_new_raises.
Qed.

(** ** Decimal rendering *)

Lemma string_of_uint_digits (u : uint) :
  forallb is_digit (list_ascii_of_string (NilEmpty.string_of_uint u)) = true.
Proof. induction u; cbn; auto. Qed.

Lemma digits_no_space (s : string) :
  forallb is_digit (list_ascii_of_string s) = true -> no_space s.
Proof.
  unfold no_space. induction s as [|c s IH]; [reflexivity|].
  cbn [list_ascii_of_string forallb]. intros [Hc Hs]%andb_prop.
  rewrite (IH Hs), andb_true_r.
  unfold is_char. destruct (Ascii.eqb_spec c " ") as [->|]; [discriminate|].
  reflexivity.
Qed.

Lemma str_no_space (n : Z) : no_space (str n).
Proof.
  unfold str. destruct (Z.to_int n) as [u|u]; cbn [NilEmpty.string_of_int].
  - apply digits_no_space, string_of_uint_digits.
  - unfold no_space. cbn [list_ascii_of_string forallb].
    apply andb_true_intro. split; [reflexivity|].
    apply digits_no_space, string_of_uint_digits.
Qed.

Lemma str_inj (n m : Z) : str n = str m -> n = m.
Proof.
  unfold str. intros H. apply DecimalZ.to_int_inj.
  apply (f_equal NilEmpty.int_of_string) in H.
  rewrite !NilEmpty.isi in H. congruence.
Qed.

Lemma append_cons (c : ascii) (a x : string) :
  String c a +:+ x = String c (a +:+ x).
Proof. reflexivity. Qed.

Lemma append_nil (x : string) : "" +:+ x = x.
Proof. reflexivity. Qed.

Lemma prefix_app (a x y : string) :
  String.prefix (a +:+ x) (a +:+ y) = String.prefix x y.
Proof.
  induction a as [|c a IH]; [reflexivity|].
  rewrite !append_cons. cbn [String.prefix].
  destruct (ascii_dec c c); [exact IH|congruence].
Qed.

(** Two words followed by a space: one is a prefix of the other only when
    they are equal. *)
Lemma prefix_word (s1 s2 x y : string) :
  no_space s1 -> no_space s2 ->
  String.prefix (s1 +:+ String " " x) (s2 +:+ String " " y) = true ->
  s1 = s2.
Proof.
  unfold no_space. revert s2.
  induction s1 as [|c s1 IH]; intros [|c' s2];
    rewrite ?append_cons, ?append_nil;
    cbn [list_ascii_of_string forallb String.prefix];
    intros H1 H2 H.
  - reflexivity.
  - apply andb_prop in H2 as [Hc _].
    destruct (ascii_dec " " c') as [<-|]; discriminate.
  - apply andb_prop in H1 as [Hc _].
    destruct (ascii_dec c " ") as [->|]; discriminate.
  - apply andb_prop in H1 as [_ H1]. apply andb_prop in H2 as [_ H2].
    destruct (ascii_dec c c') as [->|]; [|discriminate].
    f_equal. exact (IH _ H1 H2 H).
Qed.

Lemma mentions_line_same (n : Z) (id_ text : string) :
  mentions_line n (date_error_message n id_ text) = true.
Proof.
  unfold mentions_line, date_error_message.
  rewrite !prefix_app. reflexivity.
Qed.

Lemma mentions_line_inv (n j : Z) (id_ text : string) :
  mentions_line n (date_error_message j id_ text) = true -> n = j.
Proof.
  unfold mentions_line, date_error_message.
  rewrite prefix_app. intros H. apply str_inj.
  apply (prefix_word (str n) (str j) "" ("for ID #" +:+ id_ +:+ ": " +:+ text));
    auto using str_no_space.
Qed.

(** ** One row *)

(** Case analysis on the number of fields of a row: none, one, two, or
    three and more. *)
Ltac case_fields row :=
  destruct row as [|? [|? [|? ?]]].

Lemma processRow_valid line_num id_ name text rest birthday
    (data_dict : gmap string person) :
  strptime text = Return birthday ->
  processRow line_num (id_ :: name :: text :: rest) data_dict
  = ([], Return (<[id_ := (name, birthday)]> data_dict)).
Proof.
  intros H. unfold processRow. cbn. rewrite H. reflexivity.
Qed.

Lemma processRow_bad_date line_num id_ name text rest e
    (data_dict : gmap string person) :
  strptime text = Raise e ->
  processRow line_num (id_ :: name :: text :: rest) data_dict
  = ([Log (date_error_message line_num id_ text)], Return data_dict).
Proof.
  intros H. rewrite (strptime_raises _ _ H) in H.
  unfold processRow. cbn. rewrite H. reflexivity.
Qed.

Lemma processRow_short line_num row (data_dict : gmap string person) :
  has_three_fields row = false ->
  processRow line_num row data_dict = ([], Raise IndexError).
Proof.
  case_fields row; try reflexivity. discriminate.
Qed.

(** ** The monad *)

Lemma bind_ret_l {A B} (a : A) (k : A -> M B) : bind (ret a) k = k a.
Proof. unfold bind, ret. destruct (k a); reflexivity. Qed.

Lemma bind_ret_r {A} (m : M A) : bind m ret = m.
Proof.
  destruct m as [t [a|e]]; cbn; [rewrite app_nil_r|]; reflexivity.
Qed.

Lemma bind_assoc {A B C} (m : M A) (f : A -> M B) (g : B -> M C) :
  bind (bind m f) g = bind m (fun a => bind (f a) g).
Proof.
  destruct m as [t [a|e]]; cbn; [|reflexivity].
  destruct (f a) as [t' [b|e]]; cbn; [|reflexivity].
  destruct (g b) as [t'' r]. rewrite app_assoc. reflexivity.
Qed.

Lemma bind_returns {A B} (t : list event) (a : A) (k : A -> M B) :
  bind (t, Return a) k = (t ++ trace (k a), outcome (k a)).
Proof. cbn. destruct (k a); reflexivity. Qed.

(** ** The loop over the rows *)

Lemma processRow_three line_num row (data_dict : gmap string person) :
  has_three_fields row = true ->
  processRow line_num row data_dict
  = (row_log line_num row, Return (store_row data_dict row)).
Proof.
  destruct row as [|id_ [|name [|text rest]]]; try discriminate.
  intros _. unfold store_row, row_log, row_record.
  destruct (strptime text) as [b|e] eqn:H.
  - apply processRow_valid, H.
  - eapply processRow_bad_date, H.
Qed.

Lemma processRows_app line_num rows1 rows2 (data_dict : gmap string person) :
  processRows line_num (rows1 ++ rows2) data_dict
  = bind (processRows line_num rows1 data_dict)
      (processRows (line_num + Z.of_nat (length rows1)) rows2).
Proof.
  revert line_num data_dict.
  induction rows1 as [|row rows1 IH]; intros line_num data_dict.
  - cbn [app length processRows]. rewrite bind_ret_l.
    f_equal. lia.
  - cbn [app length processRows]. rewrite bind_assoc.
    destruct (processRow line_num row data_dict) as [t [d'|e]];
      [|reflexivity].
    rewrite !bind_returns, IH.
    replace (line_num + 1 + Z.of_nat (length rows1))
      with (line_num + Z.of_nat (S (length rows1))) by lia.
    reflexivity.
Qed.

Lemma processRows_three line_num rows (data_dict : gmap string person) :
  Forall (fun row => has_three_fields row = true) rows ->
  processRows line_num rows data_dict
  = (rows_log line_num rows, Return (rows_table rows data_dict)).
Proof.
  intros H. revert line_num data_dict.
  induction H as [|row rows Hrow _ IH]; intros line_num data_dict.
  - reflexivity.
  - cbn [processRows rows_log]. rewrite (processRow_three _ _ _ Hrow).
    rewrite bind_returns, IH. reflexivity.
Qed.

(** The first row with fewer than three fields stops the loop. *)
Lemma processRows_short line_num pre row post
    (data_dict : gmap string person) :
  Forall (fun r => has_three_fields r = true) pre ->
  has_three_fields row = false ->
  processRows line_num (pre ++ row :: post) data_dict
  = (rows_log line_num pre, Raise IndexError).
Proof.
  intros Hpre Hrow.
  rewrite processRows_app, (processRows_three _ _ _ Hpre), bind_returns.
  cbn [processRows]. rewrite (processRow_short _ _ _ Hrow).
  cbn. rewrite app_nil_r. reflexivity.
Qed.

(** ** The table as a fold *)

Lemma rows_table_app rows1 rows2 (d : gmap string person) :
  rows_table (rows1 ++ rows2) d = rows_table rows2 (rows_table rows1 d).
Proof. apply foldl_app. Qed.

Lemma rows_table_cons row rows (d : gmap string person) :
  rows_table (row :: rows) d = rows_table rows (store_row d row).
Proof. reflexivity. Qed.

(** Rows that do not stand for a record with key [k] leave [k] alone. *)
Lemma rows_table_lookup_other rows (d : gmap string person) (k : string) :
  Forall (fun row => forall p, row_record row <> Some (k, p)) rows ->
  rows_table rows d !! k = d !! k.
Proof.
  intros H. revert d.
  induction H as [|row rows Hrow _ IH]; intros d; [reflexivity|].
  rewrite rows_table_cons, IH. unfold store_row.
  destruct (row_record row) as [[id_ p]|] eqn:E; [|reflexivity].
  apply lookup_insert_ne. intros ->. exact (Hrow p eq_refl).
Qed.

Lemma row_record_id row id_ p :
  row_record row = Some (id_, p) -> row_id row = Some id_.
Proof.
  destruct row as [|a [|b [|c r]]]; try discriminate.
  cbn. destruct (strptime c); [|discriminate].
  intros [= <- _]. reflexivity.
Qed.

Lemma row_record_three row :
  is_Some (row_record row) -> has_three_fields row = true.
Proof.
  case_fields row; intros [x H]; try discriminate. reflexivity.
Qed.

(** The record of a row is in the table when no later row rebinds its
    key. *)
Lemma rows_table_lookup_last pre row post (d : gmap string person) id_ p :
  row_record row = Some (id_, p) ->
  Forall (fun r => forall q, row_record r <> Some (id_, q)) post ->
  rows_table (pre ++ row :: post) d !! id_ = Some p.
Proof.
  intros Hrow Hpost. rewrite rows_table_app, rows_table_cons.
  rewrite (rows_table_lookup_other _ _ _ Hpost).
  unfold store_row. rewrite Hrow. apply lookup_insert_eq.
Qed.

Lemma rows_table_size rows (d : gmap string person) :
  Forall (fun row => is_Some (row_record row)) rows ->
  NoDup (row_id <$> rows) ->
  Forall (fun row => forall id_, row_id row = Some id_ -> d !! id_ = None)
    rows ->
  size (rows_table rows d) = (size d + length rows)%nat.
Proof.
  intros Hvalid. revert d.
  induction Hvalid as [|row rows [[id_ p] Hrow] _ IH]; intros d Hnd Hfresh.
  - cbn. lia.
  - cbn [fmap list_fmap] in Hnd. apply NoDup_cons in Hnd as [Hnotin Hnd].
    apply Forall_cons in Hfresh as [Hfresh_row Hfresh].
    pose proof (row_record_id _ _ _ Hrow) as Hid.
    rewrite rows_table_cons, IH; [|done|].
    + unfold store_row. rewrite Hrow.
      rewrite map_size_insert_None by auto. cbn [length]. lia.
    + apply Forall_forall. intros r Hr k Hk.
      unfold store_row. rewrite Hrow. rewrite lookup_insert_ne.
      * rewrite Forall_forall in Hfresh. eauto.
      * intros ->. apply Hnotin. rewrite <- Hk, <- Hid in *.
        apply list_elem_of_fmap. exists r. split; [|done]. congruence.
Qed.

Lemma rows_log_valid line_num rows :
  Forall (fun row => is_Some (row_record row)) rows ->
  rows_log line_num rows = [].
Proof.
  intros H. revert line_num.
  induction H as [|row rows [x Hrow] _ IH]; intros line_num; [reflexivity|].
  cbn [rows_log]. rewrite IH, app_nil_r.
  destruct row as [|a [|b [|c r]]]; try reflexivity.
  cbn in *. destruct (strptime c); [reflexivity|discriminate].
Qed.

(** ** [processData] in terms of the rows of the reader *)

Lemma processData_rows csvData header data failure :
  csv_reader (splitlines csvData) = (header :: data, failure) ->
  processData csvData
  = bind (processRows 1 data ∅)
      (fun data_dict =>
         match failure with
         | Some e => raise e
         | None => ret data_dict
         end).
Proof. intros H. unfold processData. rewrite H. reflexivity. Qed.

Lemma processData_three csvData header data :
  csv_reader (splitlines csvData) = (header :: data, None) ->
  Forall (fun row => has_three_fields row = true) data ->
  processData csvData = (rows_log 1 data, Return (rows_table data ∅)).
Proof.
  intros H Hthree. rewrite (processData_rows _ _ _ _ H), bind_ret_r.
  apply processRows_three, Hthree.
Qed.

(** * The claims *)

(** C1. When the reader yields a header and N data rows, each of them with
    at least three fields and a birthdate that [strptime] accepts, and the
    identifiers of the rows are distinct, [processData] logs nothing and
    returns a table with exactly N entries, in which the identifier of
    every row is bound to the name and the birthdate of that row. *)
Theorem C1_valid_rows_one_entry_each csvData header data :
  csv_reader (splitlines csvData) = (header :: data, None) ->
  Forall (fun row => is_Some (row_record row)) data ->
  NoDup (row_id <$> data) ->
  exists table,
    processData csvData = ([], Return table)
    /\ size table = length data
    /\ forall row id_ p,
         row ∈ data -> row_record row = Some (id_, p) ->
         table !! id_ = Some p.
Proof.
  intros Hreader Hvalid Hnodup.
  exists (rows_table data ∅). split; [|split].
  - rewrite (processData_three _ _ _ Hreader).
    + rewrite (rows_log_valid _ _ Hvalid). reflexivity.
    + eapply Forall_impl; [exact Hvalid|]. apply row_record_three.
  - rewrite rows_table_size; [rewrite map_size_empty; lia|done..|].
    apply Forall_forall. intros. apply lookup_empty.
  - intros row id_ p Hin Hrow.
    apply list_elem_of_split in Hin as (pre & post & ->).
    apply rows_table_lookup_last; [done|].
    rewrite fmap_app, fmap_cons in Hnodup.
    apply NoDup_app in Hnodup as (_ & _ & Hnodup).
    apply NoDup_cons in Hnodup as [Hnotin _].
    apply Forall_forall. intros r Hr q Hq. apply Hnotin.
    rewrite (row_record_id _ _ _ Hrow), <- (row_record_id _ _ _ Hq).
    apply list_elem_of_fmap. eauto.
Qed.

Lemma C1_witness :
  exists table,
    processData valid_csv = ([], Return table)
    /\ size table = 2%nat
    /\ forall row id_ p,
         row ∈ [["1"; "Alice"; "15/06/1990"]; ["2"; "Bob"; "29/02/2000"]] ->
         row_record row = Some (id_, p) ->
         table !! id_ = Some p.
Proof.
  apply (C1_valid_rows_one_entry_each valid_csv sample_header
           [["1"; "Alice"; "15/06/1990"]; ["2"; "Bob"; "29/02/2000"]]).
  - vm_compute. reflexivity.
  - repeat constructor; vm_compute; eexists; reflexivity.
  - apply (bool_decide_unpack _). vm_compute. exact I.
Defined.

(** C4. When several data rows carry the same identifier, the table binds
    the identifier to the name and the birthdate of the last of them: more
    generally, to those of any valid row after which no valid row carries
    the same identifier. *)
Theorem C4_last_duplicate_wins csvData header pre row post id_ p :
  csv_reader (splitlines csvData) = (header :: pre ++ row :: post, None) ->
  Forall (fun r => has_three_fields r = true) (pre ++ post) ->
  row_record row = Some (id_, p) ->
  Forall (fun r => forall q, row_record r <> Some (id_, q)) post ->
  exists log table,
    processData csvData = (log, Return table) /\ table !! id_ = Some p.
Proof.
  intros Hreader Hthree Hrow Hpost.
  apply Forall_app in Hthree as [Hpre Hpost3].
  eexists _, _. split.
  - apply (processData_three _ _ _ Hreader).
    apply Forall_app. split; [done|]. constructor; [|done].
    apply row_record_three. eauto.
  - apply rows_table_lookup_last; done.
Qed.

Lemma C4_witness :
  exists log table,
    processData duplicate_csv = (log, Return table)
    /\ table !! "1" = Some ("Alicia", mkDate 1991 7 16).
Proof.
  apply (C4_last_duplicate_wins duplicate_csv sample_header
           [["1"; "Alice"; "15/06/1990"]] ["1"; "Alicia"; "16/07/1991"]
           [["2"; "Bob"; "29/02/2000"]]).
  - vm_compute. reflexivity.
  - repeat constructor.
  - vm_compute. reflexivity.
  - repeat constructor. intros q. vm_compute. discriminate.
Defined.

Lemma first_short_row (data : list (list string)) row :
  row ∈ data -> has_three_fields row = false ->
  exists pre short post,
    data = pre ++ short :: post
    /\ Forall (fun r => has_three_fields r = true) pre
    /\ has_three_fields short = false.
Proof.
  intros Hin Hrow.
  induction data as [|r data IH]; [by apply elem_of_nil in Hin|].
  destruct (has_three_fields r) eqn:Hr.
  - apply elem_of_cons in Hin as [->|Hin]; [congruence|].
    destruct (IH Hin) as (pre & short & post & -> & Hpre & Hshort).
    exists (r :: pre), short, post. repeat split; [|done]. by constructor.
  - exists [], r, data. repeat split; [constructor|done].
Qed.

(** C6. When some data row has fewer than three fields, [processData]
    raises [IndexError]: the loop stops at the first such row, and the only
    log entries are those of the rows before it. The row itself is neither
    logged nor skipped. *)
Theorem C6_short_row_raises_IndexError csvData header data failure row :
  csv_reader (splitlines csvData) = (header :: data, failure) ->
  row ∈ data ->
  has_three_fields row = false ->
  exists pre short post,
    data = pre ++ short :: post
    /\ Forall (fun r => has_three_fields r = true) pre
    /\ has_three_fields short = false
    /\ processData csvData = (trace (processRows 1 pre ∅), Raise IndexError).
Proof.
  intros Hreader Hin Hrow.
  destruct (first_short_row _ _ Hin Hrow)
    as (pre & short & post & -> & Hpre & Hshort).
  exists pre, short, post. repeat split; try done.
  rewrite (processData_rows _ _ _ _ Hreader).
  rewrite (processRows_short _ _ _ _ _ Hpre Hshort).
  rewrite (processRows_three _ _ _ Hpre). reflexivity.
Qed.

Lemma C6_witness :
  exists pre short post,
    [["1"; "Alice"; "31/13/2000"]; ["2"; "Bob"]; ["3"; "Carol"; "29/02/2000"]]
    = pre ++ short :: post
    /\ Forall (fun r => has_three_fields r = true) pre
    /\ has_three_fields short = false
    /\ processData short_row_csv
       = (trace (processRows 1 pre ∅), Raise IndexError).
Proof.
  apply (C6_short_row_raises_IndexError short_row_csv sample_header _ None
           ["2"; "Bob"]).
  - vm_compute. reflexivity.
  - apply elem_of_cons. right. apply elem_of_cons. left. reflexivity.
  - reflexivity.
Defined.

(** ** The log *)

Lemma rows_log_lines (k : Z) (rows : list (list string)) :
  Forall (entry_between k (k + Z.of_nat (length rows))) (rows_log k rows).
Proof.
  revert k. induction rows as [|row rows IH]; intros k; [constructor|].
  cbn [rows_log length]. apply Forall_app. split.
  - destruct row as [|a [|b [|c r]]]; try constructor.
    cbn. destruct (strptime c); constructor; [|constructor].
    exists k, a, c. split; [reflexivity|lia].
  - eapply Forall_impl; [apply IH|].
    intros ev (j & id_ & text & -> & Hj). exists j, id_, text.
    split; [reflexivity|lia].
Qed.

Lemma logged_app (t1 t2 : list event) :
  logged (t1 ++ t2) = logged t1 ++ logged t2.
Proof. apply omap_app. Qed.

Lemma logged_Log (m : string) (t : list event) :
  logged (Log m :: t) = m :: logged t.
Proof. reflexivity. Qed.

Lemma no_mention (n lo hi : Z) (evs : list event) :
  Forall (entry_between lo hi) evs ->
  n < lo \/ hi <= n ->
  List.filter (mentions_line n) (logged evs) = [].
Proof.
  intros H Hn. induction H as [|ev evs (j & id_ & text & -> & Hj) _ IH];
    [reflexivity|].
  rewrite logged_Log. cbn [List.filter].
  destruct (mentions_line n (date_error_message j id_ text)) eqn:E;
    [|exact IH].
  apply mentions_line_inv in E. lia.
Qed.

(** C2. A data row with at least three fields whose third field is not a
    date that [strptime] accepts adds exactly one entry to the log, with its
    line number and its identifier, adds nothing to the table, and the rows
    after it are processed as before: the table returned is the table of
    the input without that row (so the identifier is absent from it unless
    a valid row carries it too), and the log holds exactly one entry about
    the line of that row. *)
Theorem C2_bad_date_row_logged_and_skipped
    csvData header pre post id_ name text rest :
  csv_reader (splitlines csvData)
  = (header :: pre ++ (id_ :: name :: text :: rest) :: post, None) ->
  Forall (fun r => has_three_fields r = true) (pre ++ post) ->
  (forall birthday, strptime text <> Return birthday) ->
  exists log_pre table_pre log_post table,
    processRows 1 pre ∅ = (log_pre, Return table_pre)
    /\ processRows (Z.of_nat (length pre) + 2) post table_pre
       = (log_post, Return table)
    /\ processData csvData
       = (log_pre
            ++ Log (date_error_message (Z.of_nat (length pre) + 1) id_ text)
            :: log_post,
          Return table)
    /\ outcome (processRows 1 (pre ++ post) ∅) = Return table
    /\ (Forall (fun r => forall q, row_record r <> Some (id_, q)) (pre ++ post)
        -> table !! id_ = None)
    /\ length (List.filter (mentions_line (Z.of_nat (length pre) + 1))
                 (logged (trace (processData csvData)))) = 1%nat.
Proof.
  intros Hreader Hthree Hbad.
  pose proof Hthree as Hboth.
  apply Forall_app in Hthree as [Hpre Hpost].
  set (n := Z.of_nat (length pre) + 1).
  assert (Hrow : processRow n (id_ :: name :: text :: rest) (rows_table pre ∅)
                 = ([Log (date_error_message n id_ text)],
                    Return (rows_table pre ∅))).
  { destruct (strptime text) as [b|e] eqn:E; [by destruct (Hbad b)|].
    eapply processRow_bad_date, E. }
  assert (Hdata : processData csvData
                  = (rows_log 1 pre ++ Log (date_error_message n id_ text)
                       :: rows_log (n + 1) post,
                     Return (rows_table post (rows_table pre ∅)))).
  { rewrite (processData_rows _ _ _ _ Hreader), bind_ret_r.
    rewrite processRows_app, (processRows_three _ _ _ Hpre), bind_returns.
    cbn [processRows].
    replace (1 + Z.of_nat (length pre)) with n by lia.
    rewrite Hrow, bind_returns, (processRows_three _ _ _ Hpost).
    reflexivity. }
  exists (rows_log 1 pre), (rows_table pre ∅),
    (rows_log (n + 1) post), (rows_table post (rows_table pre ∅)).
  replace (Z.of_nat (length pre) + 2) with (n + 1) by lia.
  split; [|split; [|split; [|split; [|split]]]].
  - apply processRows_three, Hpre.
  - apply processRows_three, Hpost.
  - exact Hdata.
  - rewrite (processRows_three _ _ _ Hboth). cbn. f_equal.
    apply rows_table_app.
  - intros Hother. rewrite <- rows_table_app.
    rewrite (rows_table_lookup_other _ _ _ Hother). apply lookup_empty.
  - rewrite Hdata. unfold trace. cbn [fst].
    rewrite logged_app, logged_Log, List.filter_app. cbn [List.filter].
    rewrite mentions_line_same.
    rewrite (no_mention n _ _ _ (rows_log_lines 1 pre)) by lia.
    rewrite (no_mention n _ _ _ (rows_log_lines (n + 1) post)) by lia.
    reflexivity.
Qed.

Lemma C2_witness :
  exists log_pre table_pre log_post table,
    processRows 1 [["1"; "Alice"; "15/06/1990"]] ∅
    = (log_pre, Return table_pre)
    /\ processRows 3 [["3"; "Carol"; "29/02/2000"]] table_pre
       = (log_post, Return table)
    /\ processData bad_date_csv
       = (log_pre ++ Log (date_error_message 2 "2" "31/13/2000") :: log_post,
          Return table)
    /\ outcome (processRows 1 [["1"; "Alice"; "15/06/1990"];
                               ["3"; "Carol"; "29/02/2000"]] ∅)
       = Return table
    /\ (Forall (fun r => forall q, row_record r <> Some ("2", q))
          [["1"; "Alice"; "15/06/1990"]; ["3"; "Carol"; "29/02/2000"]]
        -> table !! "2" = None)
    /\ length (List.filter (mentions_line 2)
                 (logged (trace (processData bad_date_csv)))) = 1%nat.
Proof.
  apply (C2_bad_date_row_logged_and_skipped bad_date_csv sample_header
           [["1"; "Alice"; "15/06/1990"]] [["3"; "Carol"; "29/02/2000"]]
           "2" "Bob" "31/13/2000" []).
  - vm_compute. reflexivity.
  - repeat constructor.
  - intros birthday. vm_compute. discriminate.
Defined.

(** C3. The end-to-end example: the sample text yields the table with the
    single entry of Alice and one log entry for line 2 and identifier 2;
    with that table the input 1 prints the line of Alice, the input 2 the
    not-found line, and the input 0 ends the loop. *)
Theorem C3_end_to_end_example :
  processData sample_csv
  = ([Log "Error processing line #2 for ID #2: 31/13/2000"],
     Return sample_table)
  /\ main_loop_body sample_table "1"
     = ([Print "Person #1 is Alice with a birthday of 1990-06-15."],
        Return Prompting)
  /\ main_loop_body sample_table "2"
     = ([Print "No person found with ID #2."], Return Prompting)
  /\ main_loop_body sample_table "0"
     = ([Print "Exiting the program."], Return Terminated)
  /\ main_loop sample_table ["1"; "2"; "0"]
     = ([Prompt prompt_text;
         Print "Person #1 is Alice with a birthday of 1990-06-15.";
         Prompt prompt_text;
         Print "No person found with ID #2.";
         Prompt prompt_text;
         Print "Exiting the program."],
        Return tt).
Proof.
  repeat split; vm_compute; reflexivity.
Qed.

(** ** The header *)

Lemma splitlines_from_nil (cur s : string) :
  splitlines_from cur s = [] -> cur = "" /\ s = "".
Proof.
  revert cur. induction s as [|c s IH]; intros cur; cbn [splitlines_from].
  - destruct cur; [auto|discriminate].
  - destruct (is_linebreak c).
    + destruct (ord c =? 13)%N; [destruct s as [|c' s']|];
        try discriminate.
      destruct (ord c' =? 10)%N; discriminate.
    + intros H. apply IH in H as [H _]. destruct cur; discriminate.
Qed.

(** C7, as the code has it. A text without any line is the empty text, and
    on it [processData] raises [StopIteration], the exception of
    [next(reader)] on an exhausted reader: it logs nothing and returns no
    table. *)
Theorem C7_no_line_raises_StopIteration csvData :
  splitlines csvData = [] ->
  csvData = "" /\ processData csvData = ([], Raise StopIteration).
Proof.
  intros H. apply splitlines_from_nil in H as [_ ->]. split; reflexivity.
Qed.

Lemma C7_witness :
  "" = "" /\ processData "" = ([], Raise StopIteration).
Proof.
  apply (C7_no_line_raises_StopIteration ""). reflexivity.
Defined.

(** C7, as the specification has it, fails on the empty text: the exception
    raised there is not a [MalformedInputError]. *)
Lemma C7_counterexample :
  ~ exists e,
      outcome (processData "") = Raise e
      /\ exn_name e = "MalformedInputError".
Proof.
  intros (e & H & Hname). vm_compute in H. injection H as <-.
  discriminate Hname.
Qed.

(** ** The prompt loop *)

Section prompt_loop.
Context (personData : gmap string person).

Lemma displayPerson_prints id :
  exists line, displayPerson id personData = ([Print line], Return tt).
Proof.
  unfold displayPerson.
  destruct (personData !! id) as [[name birthday]|]; eauto.
Qed.

Lemma main_loop_body_exit input n :
  int_ input = Return n -> n <= 0 ->
  main_loop_body personData input
  = ([Print "Exiting the program."], Return Terminated).
Proof.
  intros H Hn. unfold main_loop_body. rewrite H. cbn.
  destruct (Z.leb_spec n 0); [reflexivity|lia].
Qed.

Lemma main_loop_body_lookup input n :
  int_ input = Return n -> 0 < n ->
  main_loop_body personData input
  = (trace (displayPerson (str n) personData), Return Prompting).
Proof.
  intros H Hn. unfold main_loop_body. rewrite H. cbn.
  destruct (Z.leb_spec n 0); [lia|].
  destruct (displayPerson_prints (str n)) as [line ->]. reflexivity.
Qed.

Lemma main_loop_body_invalid input :
  (forall n, int_ input <> Return n) ->
  main_loop_body personData input
  = ([Print "Please enter a valid integer ID."], Return Prompting).
Proof.
  intros H. unfold main_loop_body.
  destruct (int_ input) as [n|e] eqn:E; [by destruct (H n)|].
  rewrite (int_raises _ _ E). reflexivity.
Qed.

(** C8. An input line that [int] reads as an integer at most 0 makes the
    loop print the exit line and end, without error and whatever input
    follows; on every other input line the state after the turn is
    [Prompting]. *)
Theorem C8_sentinel_terminates input :
  (forall n, int_ input = Return n -> n <= 0 ->
     main_loop_body personData input
     = ([Print "Exiting the program."], Return Terminated)
     /\ forall rest,
          main_loop personData (input :: rest)
          = ([Prompt prompt_text; Print "Exiting the program."],
             Return tt))
  /\ ((forall n, int_ input = Return n -> 0 < n) ->
      outcome (main_loop_body personData input) = Return Prompting).
Proof.
  split.
  - intros n H Hn. pose proof (main_loop_body_exit _ _ H Hn) as Hbody.
    split; [exact Hbody|]. intros rest. cbn [main_loop]. rewrite Hbody.
    reflexivity.
  - intros H. destruct (int_ input) as [n|e] eqn:E.
    + rewrite (main_loop_body_lookup _ _ E (H n eq_refl)). reflexivity.
    + rewrite main_loop_body_invalid; [reflexivity|]. congruence.
Qed.

(** C9. An input line that [int] does not read as an integer makes the
    loop print the line asking for a valid integer and nothing else (no
    log entry), and the loop goes on with the next input line. *)
Theorem C9_invalid_input_reprompts input :
  (forall n, int_ input <> Return n) ->
  main_loop_body personData input
  = ([Print "Please enter a valid integer ID."], Return Prompting)
  /\ logged (trace (main_loop_body personData input)) = []
  /\ forall rest,
       main_loop personData (input :: rest)
       = (Prompt prompt_text :: Print "Please enter a valid integer ID."
            :: trace (main_loop personData rest),
          outcome (main_loop personData rest)).
Proof.
  intros H. pose proof (main_loop_body_invalid _ H) as Hbody.
  split; [exact Hbody|]. split; [rewrite Hbody; reflexivity|].
  intros rest. cbn [main_loop]. rewrite Hbody.
  destruct (main_loop personData rest) as [t r]. reflexivity.
Qed.

End prompt_loop.

Lemma C8_witness :
  (main_loop_body sample_table "-3"
   = ([Print "Exiting the program."], Return Terminated)
   /\ forall rest,
        main_loop sample_table ("-3" :: rest)
        = ([Prompt prompt_text; Print "Exiting the program."], Return tt))
  /\ outcome (main_loop_body sample_table "7") = Return Prompting.
Proof.
  split.
  - apply (proj1 (C8_sentinel_terminates sample_table "-3") (-3)).
    + vm_compute. reflexivity.
    + lia.
  - apply (proj2 (C8_sentinel_terminates sample_table "7")).
    intros n. vm_compute. intros [= <-]. reflexivity.
Defined.

Lemma C9_witness :
  main_loop_body sample_table "abc"
  = ([Print "Please enter a valid integer ID."], Return Prompting)
  /\ logged (trace (main_loop_body sample_table "abc")) = []
  /\ forall rest,
       main_loop sample_table ("abc" :: rest)
       = (Prompt prompt_text :: Print "Please enter a valid integer ID."
            :: trace (main_loop sample_table rest),
          outcome (main_loop sample_table rest)).
Proof.
  apply (C9_invalid_input_reprompts sample_table "abc").
  intros n. vm_compute. discriminate.
Defined.

(** ** Dates *)

Lemma append_assoc (a b c : string) : (a +:+ b) +:+ c = a +:+ b +:+ c.
Proof.
  induction a as [|x a IH]; [reflexivity|].
  rewrite !append_cons, IH. reflexivity.
Qed.

Lemma append_nil_r (a : string) : a +:+ "" = a.
Proof.
  induction a as [|x a IH]; [reflexivity|].
  rewrite append_cons, IH. reflexivity.
Qed.

Lemma list_ascii_append (a b : string) :
  list_ascii_of_string (a +:+ b)
  = list_ascii_of_string a ++ list_ascii_of_string b.
Proof.
  induction a as [|x a IH]; [reflexivity|].
  rewrite append_cons. cbn [list_ascii_of_string]. rewrite IH. reflexivity.
Qed.

Lemma days_in_month_le (y m : Z) : days_in_month y m <= 31.
Proof. unfold days_in_month. repeat case_match; lia. Qed.

Lemma datetime_new_inv (y m d : Z) (b : datetime) :
  datetime_new y m d = Return b ->
  b = mkDate y m d /\ 1 <= y <= 9999 /\ 1 <= m <= 12 /\ 1 <= d <= 31.
Proof.
  unfold datetime_new. pose proof (days_in_month_le y m).
  destruct (_ && _) eqn:E; [|discriminate]. intros [= <-].
  repeat (apply andb_prop in E as [E ?]).
  repeat match goal with
         | Hle : (_ <=? _) = true |- _ => apply Z.leb_le in Hle
         end.
  repeat split; lia.
Qed.

(** A match splits the text into what was matched and the rest. *)
Lemma rmatch_sound {A} (r : regex) (s : string)
    (k : string -> string -> option A) (x : A) :
  rmatch r s k = Some x ->
  exists m rest, s = m +:+ rest /\ k m rest = Some x.
Proof.
  revert s k. induction r as [p|r1 IH1 r2 IH2|r1 IH1 r2 IH2];
    intros s k; cbn [rmatch].
  - destruct s as [|c rest]; [discriminate|].
    destruct (p c); [|discriminate]. intros H.
    exists (String c ""), rest. split; [reflexivity|exact H].
  - intros H. apply IH1 in H as (m1 & s1 & -> & H).
    apply IH2 in H as (m2 & s2 & -> & H).
    exists (m1 +:+ m2), s2. split; [|exact H].
    symmetry. apply append_assoc.
  - destruct (rmatch r1 s k) eqn:E.
    + intros [= <-]. apply IH1, E.
    + apply IH2.
Qed.

Lemma rmatch_slash {A} (s : string) (k : string -> string -> option A) x :
  rmatch re_slash s k = Some x ->
  exists rest, s = "/" +:+ rest /\ k "/" rest = Some x.
Proof.
  cbn [rmatch re_slash]. destruct s as [|c rest]; [discriminate|].
  unfold is_char. destruct (Ascii.eqb_spec c "/") as [->|]; [|discriminate].
  intros H. exists rest. split; [reflexivity|exact H].
Qed.

Lemma match_dmY_inv (text d m Y rest : string) :
  match_dmY text = Some (d, m, Y, rest) ->
  text = d +:+ "/" +:+ m +:+ "/" +:+ Y +:+ rest.
Proof.
  unfold match_dmY. intros H.
  apply rmatch_sound in H as (d' & s1 & -> & H).
  apply rmatch_slash in H as (s2 & -> & H).
  apply rmatch_sound in H as (m' & s3 & -> & H).
  apply rmatch_slash in H as (s4 & -> & H).
  apply rmatch_sound in H as (Y' & rest' & -> & H).
  injection H as <- <- <- <-. reflexivity.
Qed.

Lemma strptime_inv (text : string) (b : datetime) :
  strptime text = Return b ->
  exists d m Y,
    text = d +:+ "/" +:+ m +:+ "/" +:+ Y
    /\ int_ d = Return (day b) /\ int_ m = Return (month b)
    /\ int_ Y = Return (year b)
    /\ 1 <= year b <= 9999 /\ 1 <= month b <= 12 /\ 1 <= day b <= 31.
Proof.
  unfold strptime.
  destruct (match_dmY text) as [[[[d m] Y] rest]|] eqn:E; [|discriminate].
  destruct rest; [|discriminate].
  apply match_dmY_inv in E. rewrite append_nil_r in E.
  unfold result_bind.
  destruct (int_ Y) as [y|] eqn:EY; [|discriminate].
  destruct (int_ m) as [mo|] eqn:Em; [|discriminate].
  destruct (int_ d) as [da|] eqn:Ed; [|discriminate].
  intros H. apply datetime_new_inv in H as (-> & Hy & Hm & Hd).
  exists d, m, Y. cbn. auto 10.
Qed.

Lemma check_pad_range (w : nat) (lo len n : Z) :
  forallb (check_pad w) (seqZ lo len) = true ->
  lo <= n < lo + len -> check_pad w n = true.
Proof.
  intros H Hn. rewrite forallb_forall in H. apply H.
  apply list_elem_of_In, elem_of_seqZ, Hn.
Qed.

Lemma check_pad4 (n : Z) : 1 <= n <= 9999 -> check_pad 4 n = true.
Proof.
  intros Hn. apply (check_pad_range 4 1 9999); [|lia].
  vm_compute. reflexivity.
Qed.

Lemma check_pad2 (n : Z) : 1 <= n <= 31 -> check_pad 2 n = true.
Proof.
  intros Hn. apply (check_pad_range 2 1 31); [|lia].
  vm_compute. reflexivity.
Qed.

Lemma check_pad_inv2 (n : Z) :
  check_pad 2 n = true ->
  exists a b,
    list_ascii_of_string (zfill 2 (str n)) = [a; b]
    /\ is_digit a = true /\ is_digit b = true
    /\ 10 * digit_value a + digit_value b = n.
Proof.
  unfold check_pad.
  destruct (list_ascii_of_string (zfill 2 (str n))) as [|a [|b [|c l]]];
    try discriminate.
  cbn [length forallb]. unfold digits_value. cbn [fold_left].
  intros H. apply andb_prop in H as [H Hv].
  apply andb_prop in H as [_ Hdig].
  repeat (apply andb_prop in Hdig as [? Hdig]).
  apply Z.eqb_eq in Hv.
  exists a, b. repeat split; auto; lia.
Qed.

Lemma check_pad_inv4 (n : Z) :
  check_pad 4 n = true ->
  exists a b c d,
    list_ascii_of_string (zfill 4 (str n)) = [a; b; c; d]
    /\ is_digit a = true /\ is_digit b = true
    /\ is_digit c = true /\ is_digit d = true
    /\ 1000 * digit_value a + 100 * digit_value b
       + 10 * digit_value c + digit_value d = n.
Proof.
  unfold check_pad.
  destruct (list_ascii_of_string (zfill 4 (str n)))
    as [|a [|b [|c [|d [|e l]]]]]; try discriminate.
  cbn [length forallb]. unfold digits_value. cbn [fold_left].
  intros H. apply andb_prop in H as [H Hv].
  apply andb_prop in H as [_ Hdig].
  repeat (apply andb_prop in Hdig as [? Hdig]).
  apply Z.eqb_eq in Hv.
  exists a, b, c, d. repeat split; auto; lia.
Qed.

(** A year from 1000 on is written on four digits. *)
Lemma str_year4 (y : Z) : 1000 <= y <= 9999 -> zfill 4 (str y) = str y.
Proof.
  intros Hy.
  assert (H : forallb (fun n => String.eqb (zfill 4 (str n)) (str n))
                (seqZ 1000 9000) = true) by (vm_compute; reflexivity).
  rewrite forallb_forall in H. apply String.eqb_eq, H.
  apply list_elem_of_In, elem_of_seqZ. lia.
Qed.

(** From the year 1000 on, reading the ISO form of a date gives the date
    back. *)
Lemma iso_date_of_strftime (y m d : Z) :
  1000 <= y <= 9999 -> 1 <= m <= 31 -> 1 <= d <= 31 ->
  iso_date_of (strftime (mkDate y m d)) = Some (mkDate y m d).
Proof.
  intros Hy Hm Hd.
  destruct (check_pad_inv4 y (check_pad4 y ltac:(lia)))
    as (y1 & y2 & y3 & y4 & Ey & ? & ? & ? & ? & Vy).
  destruct (check_pad_inv2 m (check_pad2 m Hm))
    as (m1 & m2 & Em & ? & ? & Vm).
  destruct (check_pad_inv2 d (check_pad2 d Hd))
    as (n1 & n2 & Ed & ? & ? & Vd).
  unfold iso_date_of, strftime. cbn [year month day].
  rewrite <- (str_year4 y Hy).
  rewrite !list_ascii_append, Ey, Em, Ed.
  cbn [list_ascii_of_string app forallb].
  repeat match goal with
         | Hdig : is_digit _ = true |- _ => rewrite Hdig; clear Hdig
         end.
  cbn. rewrite Vy, Vm, Vd. reflexivity.
Qed.

(** C5, as the code has it. When the birthdate text of a row is accepted
    by [strptime], the text is [d/m/Y] where [d], [m] and [Y] write the
    day, the month and the year of the date; a lookup of a record with that
    date prints what [strftime] renders, and from the year 1000 on that is
    the form [YYYY-MM-DD], which reads back as the same date however the
    day and the month were written in the input. *)
Theorem C5_birthdate_printed_in_iso_form (text : string) (birthday : datetime) :
  strptime text = Return birthday ->
  (exists d m Y,
     text = d +:+ "/" +:+ m +:+ "/" +:+ Y
     /\ int_ d = Return (day birthday)
     /\ int_ m = Return (month birthday)
     /\ int_ Y = Return (year birthday))
  /\ (1000 <= year birthday ->
      iso_date_of (strftime birthday) = Some birthday)
  /\ forall id name (personData : gmap string person),
       personData !! id = Some (name, birthday) ->
       displayPerson id personData
       = ([Print ("Person #" +:+ id +:+ " is " +:+ name
                  +:+ " with a birthday of " +:+ strftime birthday +:+ ".")],
          Return tt).
Proof.
  intros H.
  apply strptime_inv in H as (d & m & Y & -> & Hd & Hm & HY & ? & ? & ?).
  split; [eauto 10|]. split.
  - intros Hyear. destruct birthday as [y mo da]. cbn in *.
    apply iso_date_of_strftime; lia.
  - intros id name personData Hlookup. unfold displayPerson.
    rewrite Hlookup. reflexivity.
Qed.

Lemma C5_witness :
  (exists d m Y,
     " 5/6/1990" = d +:+ "/" +:+ m +:+ "/" +:+ Y
     /\ int_ d = Return 5 /\ int_ m = Return 6 /\ int_ Y = Return 1990)
  /\ iso_date_of (strftime (mkDate 1990 6 5)) = Some (mkDate 1990 6 5)
  /\ forall id name (personData : gmap string person),
       personData !! id = Some (name, mkDate 1990 6 5) ->
       displayPerson id personData
       = ([Print ("Person #" +:+ id +:+ " is " +:+ name
                  +:+ " with a birthday of "
                  +:+ strftime (mkDate 1990 6 5) +:+ ".")],
          Return tt).
Proof.
  destruct (C5_birthdate_printed_in_iso_form " 5/6/1990" (mkDate 1990 6 5))
    as (H1 & H2 & H3); [vm_compute; reflexivity|].
  split; [exact H1|]. split; [|exact H3].
  apply H2. cbn. lia.
Defined.

(** C5, as the specification has it, fails for a year below 1000: the row
    [1,Old,02/03/0987] is accepted and stored, and its lookup prints the
    year on three digits, which is not the form [YYYY-MM-DD]. *)
Lemma C5_counterexample :
  processData old_csv = ([], Return old_table)
  /\ strptime "02/03/0987" = Return (mkDate 987 3 2)
  /\ main_loop_body old_table "1"
     = ([Print "Person #1 is Old with a birthday of 987-03-02."],
        Return Prompting)
  /\ iso_date_of (strftime (mkDate 987 3 2)) = None.
Proof.
  repeat split; vm_compute; reflexivity.
Qed.

(** ** Lookup keys *)






(** ** The digit limit *)





Lemma string_of_uint_length (u : uint) :
  String.length (NilEmpty.string_of_uint u) = nb_digits u.
Proof. induction u; cbn; auto. Qed.



(** * Further properties *)

(** ** What [processData] raises and emits *)

Lemma parse_add_char_raises self c e :
  parse_add_char self c = Raise e -> e = CsvError.
Proof. unfold parse_add_char. case_match; congruence. Qed.

Lemma parse_process_char_raises self c e :
  parse_process_char self c = Raise e -> e = CsvError.
Proof.
  unfold parse_process_char, process_START_FIELD, result_map.
  repeat case_match; try congruence;
    try (intros [= <-]); eauto using parse_add_char_raises.
Qed.

Lemma process_line_raises line self e :
  process_line self line = Raise e -> e = CsvError.
Proof.
  revert self. induction line as [|c line IH]; intros self; cbn.
  - apply parse_process_char_raises.
  - destruct (parse_process_char self (Some c)) eqn:E.
    + apply IH.
    + intros [= <-]. eapply parse_process_char_raises, E.
Qed.

Lemma reader_rows_raises lines self rows e :
  reader_rows self lines = (rows, Some e) -> e = CsvError.
Proof.
  revert self rows. induction lines as [|line lines IH]; intros self rows;
    cbn [reader_rows].
  - case_match; discriminate.
  - destruct (process_line self line) as [self'|e'] eqn:E.
    + destruct (ParserState_eqb (state self') START_RECORD); [|apply IH].
      destruct (reader_rows parse_reset lines) as [rows' e'] eqn:E'.
      intros [= _ ->]. eapply IH, E'.
    + intros [= _ <-]. eapply process_line_raises, E.
Qed.

Lemma processRow_cases line_num row (data_dict : gmap string person) :
  processRow line_num row data_dict
  = if has_three_fields row
    then (row_log line_num row, Return (store_row data_dict row))
    else ([], Raise IndexError).
Proof.
  destruct (has_three_fields row) eqn:E.
  - apply processRow_three, E.
  - apply processRow_short, E.
Qed.

Lemma row_log_is_log line_num row : Forall is_log (row_log line_num row).
Proof.
  unfold row_log. repeat case_match; repeat constructor. eexists; eauto.
Qed.

Lemma processRows_raises rows line_num (d : gmap string person) t e :
  processRows line_num rows d = (t, Raise e) -> e = IndexError.
Proof.
  revert line_num d t. induction rows as [|row rows IH]; intros n d t;
    cbn [processRows]; [discriminate|].
  rewrite processRow_cases. destruct (has_three_fields row).
  - rewrite bind_returns.
    destruct (processRows (n + 1) rows (store_row d row)) as [t' r] eqn:E.
    cbn. intros [= _ ->]. eapply IH, E.
  - cbn. congruence.
Qed.

Lemma processRows_is_log rows line_num (d : gmap string person) :
  Forall is_log (trace (processRows line_num rows d)).
Proof.
  revert line_num d. induction rows as [|row rows IH]; intros n d;
    cbn [processRows]; [constructor|].
  rewrite processRow_cases. destruct (has_three_fields row).
  - rewrite bind_returns. cbn. apply Forall_app. split; [|apply IH].
    apply row_log_is_log.
  - constructor.
Qed.

Lemma processData_raises csvData t e :
  processData csvData = (t, Raise e) ->
  e = StopIteration \/ e = IndexError \/ e = CsvError.
Proof.
  unfold processData.
  destruct (csv_reader (splitlines csvData)) as [rows failure] eqn:E.
  assert (Hfail : forall e', failure = Some e' -> e' = CsvError).
  { intros e' ->. eapply reader_rows_raises, E. }
  destruct rows as [|header data].
  - destruct failure as [e'|]; intros [= _ <-]; auto.
  - destruct (processRows 1 data ∅) as [t' [d|e']] eqn:E'.
    + rewrite bind_returns. destruct failure as [e'|]; intros [= _ <-]; auto.
    + intros [= _ <-]. right. left. eapply processRows_raises, E'.
Qed.

Lemma processData_is_log csvData : Forall is_log (trace (processData csvData)).
Proof.
  unfold processData.
  destruct (csv_reader (splitlines csvData)) as [[|header data] failure].
  - destruct failure; constructor.
  - pose proof (processRows_is_log data 1 ∅) as H.
    destruct (processRows 1 data ∅) as [t' [d|e']]; cbn in *; [|exact H].
    destruct failure; cbn; rewrite app_nil_r; exact H.
Qed.

(** X1. Whatever the text, [processData] emits log entries only (it never
    prints and never prompts), and the only exceptions that leave it are
    [StopIteration], [IndexError] and the error of the reader: the
    [ValueError] of a date that does not parse is always caught. *)
Theorem X1_processData_effects csvData :
  (forall ev, ev ∈ trace (processData csvData) -> exists m, ev = Log m)
  /\ (forall e, outcome (processData csvData) = Raise e ->
        e = StopIteration \/ e = IndexError \/ e = CsvError)
  /\ outcome (processData csvData) <> Raise ValueError.
Proof.
  split; [|split].
  - intros ev Hev.
    exact (proj1 (Forall_forall _ _) (processData_is_log csvData) ev Hev).
  - intros e H. destruct (processData csvData) as [t r] eqn:E. cbn in H.
    subst r. eapply processData_raises, E.
  - intros H. destruct (processData csvData) as [t r] eqn:E. cbn in H.
    subst r. apply processData_raises in E as [|[|]]; discriminate.
Qed.

Lemma X1_witness :
  (exists m, Log "Error processing line #2 for ID #2: 31/13/2000" = Log m)
  /\ (IndexError = StopIteration \/ IndexError = IndexError
      \/ IndexError = CsvError).
Proof.
  split.
  - apply (proj1 (X1_processData_effects sample_csv)).
    assert (trace (processData sample_csv)
            = [Log "Error processing line #2 for ID #2: 31/13/2000"]) as ->
      by (vm_compute; reflexivity).
    left.
  - apply (proj1 (proj2 (X1_processData_effects short_row_csv))).
    vm_compute. reflexivity.
Defined.

(** ** The entries of the table *)

Lemma datetime_new_calendar (y m d : Z) (b : datetime) :
  datetime_new y m d = Return b -> is_calendar_date b.
Proof.
  unfold datetime_new, is_calendar_date.
  destruct (_ && _) eqn:E; [|discriminate]. intros [= <-]. cbn.
  repeat (apply andb_prop in E as [E ?]).
  repeat match goal with
         | Hle : (_ <=? _) = true |- _ => apply Z.leb_le in Hle
         end.
  repeat split; lia.
Qed.

Lemma strptime_calendar (text : string) (b : datetime) :
  strptime text = Return b -> is_calendar_date b.
Proof.
  unfold strptime, result_bind. repeat case_match; try discriminate.
  apply datetime_new_calendar.
Qed.

Lemma row_record_inv row id_ name b :
  row_record row = Some (id_, (name, b)) ->
  exists text rest,
    row = id_ :: name :: text :: rest /\ strptime text = Return b.
Proof.
  case_fields row; try discriminate. cbn.
  destruct (strptime _) eqn:E; [|discriminate]. intros [= -> -> ->]. eauto.
Qed.

(** An entry of the table was in the table before the rows, or is the
    record of one of the rows. *)
Lemma rows_table_provenance rows (d : gmap string person) k p :
  rows_table rows d !! k = Some p ->
  d !! k = Some p \/ exists row, row ∈ rows /\ row_record row = Some (k, p).
Proof.
  revert d. induction rows as [|row rows IH]; intros d; [auto|].
  rewrite rows_table_cons. intros H. apply IH in H as [H|(r & Hr & Hrec)].
  - unfold store_row in H. destruct (row_record row) as [[id_ q]|] eqn:E.
    + destruct (decide (id_ = k)) as [->|Hne].
      * rewrite lookup_insert_eq in H. injection H as ->.
        right. exists row. split; [left|exact E].
      * rewrite lookup_insert_ne in H by done. auto.
    + auto.
  - right. exists r. split; [by right|exact Hrec].
Qed.

Lemma processRows_returns_three rows line_num (d d' : gmap string person) t :
  processRows line_num rows d = (t, Return d') ->
  Forall (fun row => has_three_fields row = true) rows.
Proof.
  revert line_num d t. induction rows as [|row rows IH]; intros n d t;
    cbn [processRows]; [constructor|].
  rewrite processRow_cases. destruct (has_three_fields row) eqn:E.
  - rewrite bind_returns.
    destruct (processRows (n + 1) rows (store_row d row)) as [t' r] eqn:E'.
    cbn. intros [= _ ->]. constructor; [exact E|]. eapply IH, E'.
  - discriminate.
Qed.

(** When [processData] returns, the reader has yielded a header and rows
    with three fields and more, without error, and the table is the fold
    of the rows. *)
Lemma processData_returns_inv csvData t table :
  processData csvData = (t, Return table) ->
  exists header data,
    csv_reader (splitlines csvData) = (header :: data, None)
    /\ Forall (fun row => has_three_fields row = true) data
    /\ t = rows_log 1 data /\ table = rows_table data ∅.
Proof.
  unfold processData.
  destruct (csv_reader (splitlines csvData)) as [[|header data] failure].
  - destruct failure; discriminate.
  - destruct (processRows 1 data ∅) as [t' [d|e]] eqn:E; [|discriminate].
    rewrite bind_returns. destruct failure; [discriminate|].
    cbn. rewrite app_nil_r. intros [= <- <-].
    pose proof (processRows_returns_three _ _ _ _ _ E) as Hthree.
    rewrite (processRows_three _ _ _ Hthree) in E. injection E as <- <-.
    exists header, data. auto.
Qed.

(** X2. Every entry of a table that [processData] returns is the record of
    a data row of the input: the key is the first field of the row, the
    name its second field, and the birthdate is what [strptime] reads in
    its third field, a date of the calendar with a year from 1 to 9999. No
    entry stands for a row whose date does not parse. *)
Theorem X2_table_entries_come_from_rows csvData t table id_ name birthday :
  processData csvData = (t, Return table) ->
  table !! id_ = Some (name, birthday) ->
  is_calendar_date birthday
  /\ exists header data text rest,
      csv_reader (splitlines csvData) = (header :: data, None)
      /\ (id_ :: name :: text :: rest) ∈ data
      /\ strptime text = Return birthday.
Proof.
  intros H Hlookup.
  apply processData_returns_inv in H as (header & data & Hreader & _ & _ & ->).
  apply rows_table_provenance in Hlookup as [Hempty|(row & Hin & Hrec)].
  - rewrite lookup_empty in Hempty. discriminate.
  - apply row_record_inv in Hrec as (text & rest & -> & Hdate).
    split; [eapply strptime_calendar, Hdate|].
    exists header, data, text, rest. auto.
Qed.

Lemma X2_witness :
  is_calendar_date (mkDate 1990 6 15)
  /\ exists header data text rest,
      csv_reader (splitlines sample_csv) = (header :: data, None)
      /\ ("1" :: "Alice" :: text :: rest) ∈ data
      /\ strptime text = Return (mkDate 1990 6 15).
Proof.
  apply (X2_table_entries_come_from_rows sample_csv
           [Log "Error processing line #2 for ID #2: 31/13/2000"]
           sample_table "1" "Alice" (mkDate 1990 6 15)).
  - vm_compute. reflexivity.
  - vm_compute. reflexivity.
Defined.

(** ** Counting rows, log entries and table entries *)

Lemma rows_log_length line_num rows :
  Forall (fun row => has_three_fields row = true) rows ->
  (length (rows_log line_num rows) + length (List.filter is_valid_row rows)
   = length rows)%nat.
Proof.
  intros H. revert line_num.
  induction H as [|row rows Hrow _ IH]; intros n; [reflexivity|].
  cbn [rows_log List.filter length]. rewrite length_app.
  specialize (IH (n + 1)).
  assert (length (row_log n row) + (if is_valid_row row then 1 else 0) = 1)%nat
    as Hone.
  { unfold is_valid_row, row_log, row_record.
    case_fields row; try discriminate. destruct (strptime _); reflexivity. }
  destruct (is_valid_row row); cbn [length]; lia.
Qed.

Lemma rows_table_size_le rows (d : gmap string person) :
  (size (rows_table rows d)
   <= size d + length (List.filter is_valid_row rows))%nat.
Proof.
  revert d. induction rows as [|row rows IH]; intros d; [cbn; lia|].
  rewrite rows_table_cons. etransitivity; [apply IH|].
  cbn [List.filter]. unfold store_row.
  destruct (row_record row) as [[id_ p]|] eqn:E.
  - replace (is_valid_row row) with true
      by (unfold is_valid_row; by rewrite E).
    rewrite map_size_insert. cbn [length].
    destruct (d !! id_); unfold id; lia.
  - replace (is_valid_row row) with false
      by (unfold is_valid_row; by rewrite E).
    lia.
Qed.

(** X3. When every data row has at least three fields, each row either adds
    one log entry (its date does not parse) or stands for a record: the
    number of log entries plus the number of valid rows is the number of
    data rows, and the table has at most as many entries as there are valid
    rows (fewer when identifiers repeat). *)
Theorem X3_rows_are_logged_or_stored csvData header data :
  csv_reader (splitlines csvData) = (header :: data, None) ->
  Forall (fun row => has_three_fields row = true) data ->
  exists log table,
    processData csvData = (log, Return table)
    /\ (length log + length (List.filter is_valid_row data) = length data)%nat
    /\ (size table <= length (List.filter is_valid_row data))%nat.
Proof.
  intros Hreader Hthree.
  exists (rows_log 1 data), (rows_table data ∅).
  split; [apply (processData_three _ _ _ Hreader Hthree)|].
  split; [apply rows_log_length, Hthree|].
  etransitivity; [apply rows_table_size_le|].
  rewrite map_size_empty. lia.
Qed.

Lemma X3_witness :
  exists log table,
    processData bad_date_csv = (log, Return table)
    /\ (length log + 2 = 3)%nat
    /\ (size table <= 2)%nat.
Proof.
  apply (X3_rows_are_logged_or_stored bad_date_csv sample_header
           [["1"; "Alice"; "15/06/1990"]; ["2"; "Bob"; "31/13/2000"];
            ["3"; "Carol"; "29/02/2000"]]).
  - vm_compute. reflexivity.
  - repeat constructor.
Defined.

(** ** The order of the rows *)

Lemma rows_table_lookup_iff rows k p :
  NoDup (row_id <$> rows) ->
  rows_table rows ∅ !! k = Some p
  <-> exists row, row ∈ rows /\ row_record row = Some (k, p).
Proof.
  intros Hnodup. split.
  - intros H. apply rows_table_provenance in H as [H|H]; [|exact H].
    rewrite lookup_empty in H. discriminate.
  - intros (row & Hin & Hrow).
    apply list_elem_of_split in Hin as (pre & post & ->).
    apply rows_table_lookup_last; [done|].
    rewrite fmap_app, fmap_cons in Hnodup.
    apply NoDup_app in Hnodup as (_ & _ & Hnodup).
    apply NoDup_cons in Hnodup as [Hnotin _].
    apply Forall_forall. intros r Hr q Hq. apply Hnotin.
    rewrite (row_record_id _ _ _ Hrow), <- (row_record_id _ _ _ Hq).
    apply list_elem_of_fmap. eauto.
Qed.

Lemma rows_table_permutation rows rows' :
  rows ≡ₚ rows' -> NoDup (row_id <$> rows) ->
  rows_table rows ∅ = rows_table rows' ∅.
Proof.
  intros Hperm Hnodup.
  assert (Hnodup' : NoDup (row_id <$> rows')) by (by rewrite <- Hperm).
  apply map_eq. intros k. apply option_eq. intros p.
  rewrite !rows_table_lookup_iff by done.
  split; intros (row & Hin & Hrow); exists row; split; try done.
  - by rewrite <- Hperm.
  - by rewrite Hperm.
Qed.

(** X4. With distinct identifiers the table does not depend on the order of
    the data rows: two inputs whose data rows are the same up to their
    order, all with at least three fields, give the same table (their logs
    differ by the line numbers). The headers may differ: the header is
    never looked at. *)
Theorem X4_row_order_is_irrelevant csvData csvData' header header' data data' :
  csv_reader (splitlines csvData) = (header :: data, None) ->
  csv_reader (splitlines csvData') = (header' :: data', None) ->
  data ≡ₚ data' ->
  Forall (fun row => has_three_fields row = true) data ->
  NoDup (row_id <$> data) ->
  exists table,
    outcome (processData csvData) = Return table
    /\ outcome (processData csvData') = Return table.
Proof.
  intros Hreader Hreader' Hperm Hthree Hnodup.
  assert (Hthree' : Forall (fun row => has_three_fields row = true) data')
    by (by rewrite <- Hperm).
  exists (rows_table data ∅).
  rewrite (processData_three _ _ _ Hreader Hthree).
  rewrite (processData_three _ _ _ Hreader' Hthree').
  split; [reflexivity|]. cbn.
  by rewrite (rows_table_permutation _ _ Hperm Hnodup).
Qed.

Lemma X4_witness :
  exists table,
    outcome (processData valid_csv) = Return table
    /\ outcome (processData swapped_csv) = Return table.
Proof.
  apply (X4_row_order_is_irrelevant valid_csv swapped_csv
           sample_header sample_header
           [["1"; "Alice"; "15/06/1990"]; ["2"; "Bob"; "29/02/2000"]]
           [["2"; "Bob"; "29/02/2000"]; ["1"; "Alice"; "15/06/1990"]]).
  - vm_compute. reflexivity.
  - vm_compute. reflexivity.
  - apply perm_swap.
  - repeat constructor.
  - apply (bool_decide_unpack _). vm_compute. exact I.
Defined.

(** ** The lines of a text *)

Lemma length_append (a b : string) :
  String.length (a +:+ b) = (String.length a + String.length b)%nat.
Proof.
  induction a as [|c a IH]; [reflexivity|].
  rewrite append_cons. cbn [String.length]. rewrite IH. reflexivity.
Qed.

Lemma is_one_line_app (a b : string) :
  is_one_line (a +:+ b) = is_one_line a && is_one_line b.
Proof.
  unfold is_one_line. rewrite list_ascii_append. apply forallb_app.
Qed.

Lemma is_one_line_cons (c : ascii) (s : string) :
  is_one_line (String c s) = negb (is_linebreak c) && is_one_line s.
Proof. reflexivity. Qed.

(** Induction on the length of a text: [splitlines_from] steps over one
    character, or over two at a CR LF. *)
Lemma string_length_ind (P : string -> Prop) :
  (forall s, (forall s', (String.length s' < String.length s)%nat -> P s')
             -> P s) ->
  forall s, P s.
Proof.
  intros H s. remember (String.length s) as n eqn:Hn. revert s Hn.
  induction n as [n IH] using lt_wf_ind. intros s ->.
  apply H. intros s' Hlt. exact (IH _ Hlt s' eq_refl).
Qed.

(** The lines of [splitlines] hold no line boundary and are together no
    longer than the text. *)
Lemma splitlines_from_lines (s cur : string) :
  is_one_line cur = true ->
  Forall (fun line => is_one_line line = true) (splitlines_from cur s)
  /\ (total_length (splitlines_from cur s)
      <= String.length cur + String.length s)%nat.
Proof.
  unfold total_length.
  revert cur. induction s as [s IH] using string_length_ind.
  intros cur Hcur. destruct s as [|c s]; cbn [splitlines_from].
  - destruct cur; cbn; [split; [constructor|lia]|].
    split; [repeat constructor; exact Hcur|cbn; lia].
  - assert (Htail : forall s', (String.length s' <= String.length s)%nat ->
              Forall (fun line => is_one_line line = true)
                (cur :: splitlines_from "" s')
              /\ (sum_list (String.length <$> cur :: splitlines_from "" s')
                  <= String.length cur + String.length (String c s))%nat).
    { intros s' Hs'. destruct (IH s' ltac:(cbn; lia) "" eq_refl) as [H1 H2].
      split; [by constructor|]. cbn in *. lia. }
    destruct (is_linebreak c) eqn:Hc.
    + destruct (ord c =? 13)%N; [|apply Htail; lia].
      destruct s as [|c' s']; [apply Htail; cbn; lia|].
      destruct (ord c' =? 10)%N; apply Htail; cbn; lia.
    + destruct (IH s ltac:(cbn; lia) (cur +:+ String c "")) as [H1 H2].
      { rewrite is_one_line_app, Hcur, is_one_line_cons, Hc. reflexivity. }
      split; [exact H1|]. rewrite length_append in H2. cbn in *. lia.
Qed.

Lemma is_newline_linebreak (c : ascii) :
  is_linebreak c = false -> is_newline c = false.
Proof.
  unfold is_linebreak, is_newline, in_range.
  destruct (N.eqb_spec (ord c) 10) as [->|]; [discriminate|].
  destruct (N.eqb_spec (ord c) 13) as [->|]; [discriminate|].
  reflexivity.
Qed.

(** ** The reader on a text within the field limit *)

Lemma parse_add_char_ok self c :
  (N.of_nat (flen self) < field_limit)%N ->
  parse_add_char self c
  = Return {| fields := fields self;
              field := field self +:+ String c "";
              state := state self |}.
Proof.
  unfold parse_add_char, flen. intros H.
  destruct (N.leb_spec field_limit (N.of_nat (String.length (field self))));
    [lia|reflexivity].
Qed.

Lemma flen_add self c :
  flen {| fields := fields self;
          field := field self +:+ String c "";
          state := state self |} = S (flen self).
Proof. unfold flen. cbn. rewrite length_append. cbn. lia. Qed.

Lemma parse_process_char_char self ch :
  state self <> EAT_CRNL -> is_newline ch = false ->
  (N.of_nat (flen self) < field_limit)%N ->
  exists self',
    parse_process_char self (Some ch) = Return self'
    /\ state self' <> EAT_CRNL /\ (flen self' <= S (flen self))%nat.
Proof.
  intros Hst Hnl Hlen.
  pose proof (parse_add_char_ok self ch Hlen) as Hadd.
  pose proof (parse_add_char_ok (set_state START_FIELD self) ch Hlen) as Hadd'.
  pose proof (flen_add self ch) as Hflen.
  unfold parse_process_char, process_START_FIELD.
  destruct (state self) eqn:E; try congruence;
    cbn [is_eol_or_newline is_some_char char_or_nul after_eol];
    rewrite ?Hnl;
    repeat match goal with
           | |- context [if ?b then _ else _] => destruct b
           end;
    rewrite ?Hadd, ?Hadd'; cbn [result_map];
    eexists; (split; [reflexivity|]); cbn; rewrite ?E;
    (split; [discriminate|]); unfold flen in *; cbn in *; lia.
Qed.

Lemma parse_process_char_eol self :
  state self <> EAT_CRNL ->
  exists self',
    parse_process_char self None = Return self'
    /\ (state self' = START_RECORD \/ state self' = IN_QUOTED_FIELD)
    /\ (flen self' <= flen self)%nat.
Proof.
  intros Hst. unfold parse_process_char, process_START_FIELD.
  destruct (state self) eqn:E; try congruence;
    cbn [is_eol_or_newline is_some_char after_eol];
    eexists; (split; [reflexivity|]); cbn; rewrite ?E;
    (split; [auto|]); unfold flen; cbn; lia.
Qed.

Lemma process_line_ok line self :
  is_one_line line = true -> state self <> EAT_CRNL ->
  (N.of_nat (flen self + String.length line) <= field_limit)%N ->
  exists self',
    process_line self line = Return self'
    /\ (state self' = START_RECORD \/ state self' = IN_QUOTED_FIELD)
    /\ (flen self' <= flen self + String.length line)%nat.
Proof.
  revert self. induction line as [|c line IH]; intros self Hline Hst Hlen;
    cbn [process_line].
  - destruct (parse_process_char_eol self Hst) as (self' & -> & H1 & H2).
    exists self'. repeat split; [exact H1|lia].
  - rewrite is_one_line_cons in Hline. apply andb_prop in Hline as [Hc Hline].
    apply negb_true_iff, is_newline_linebreak in Hc.
    cbn [String.length] in Hlen.
    destruct (parse_process_char_char self c Hst Hc) as (self1 & -> & H1 & H2);
      [lia|].
    destruct (IH self1 Hline H1) as (self' & -> & H3 & H4); [lia|].
    exists self'. repeat split; [exact H3|]. cbn [String.length]. lia.
Qed.

Lemma reader_rows_ok lines self :
  Forall (fun line => is_one_line line = true) lines ->
  state self <> EAT_CRNL ->
  (N.of_nat (flen self + total_length lines) <= field_limit)%N ->
  exists rows,
    reader_rows self lines = (rows, None)
    /\ (lines <> [] \/ state self = IN_QUOTED_FIELD -> rows <> []).
Proof.
  unfold total_length.
  intros Hlines. revert self.
  induction Hlines as [|line lines Hline _ IH]; intros self Hst Hlen;
    cbn [reader_rows].
  - destruct (ParserState_eqb (state self) IN_QUOTED_FIELD) eqn:E.
    + rewrite orb_true_r. eexists. split; [reflexivity|discriminate].
    + destruct (negb _); cbn; eexists; (split; [reflexivity|]);
        [discriminate|].
      intros [H|H]; [done|]. rewrite H in E. discriminate.
  - cbn in Hlen.
    destruct (process_line_ok line self Hline Hst) as (self' & -> & H1 & H2);
      [lia|].
    destruct H1 as [H1|H1]; rewrite H1; cbn [ParserState_eqb].
    + destruct (IH parse_reset) as (rows & -> & _); [discriminate|cbn; lia|].
      eexists. split; [reflexivity|discriminate].
    + destruct (IH self') as (rows & -> & Hne); [congruence|lia|].
      eexists. split; [reflexivity|]. intros _. apply Hne. by right.
Qed.

Lemma csv_reader_ok (csvData : string) :
  (N.of_nat (String.length csvData) <= field_limit)%N ->
  exists rows,
    csv_reader (splitlines csvData) = (rows, None)
    /\ (csvData <> "" -> rows <> []).
Proof.
  intros Hlen. destruct (splitlines_from_lines csvData "" eq_refl) as [H1 H2].
  destruct (reader_rows_ok (splitlines csvData) parse_reset H1)
    as (rows & Hrows & Hne); [discriminate|cbn in *; unfold splitlines; lia|].
  exists rows. split; [exact Hrows|]. intros Hdata. apply Hne. left.
  intros Hnil. apply splitlines_from_nil in Hnil as [_ ->]. done.
Qed.

Lemma forallb_false_elem {A} (f : A -> bool) (l : list A) :
  forallb f l = false -> exists x, x ∈ l /\ f x = false.
Proof.
  induction l as [|a l IH]; [discriminate|]. cbn.
  destruct (f a) eqn:E.
  - intros H. destruct (IH H) as (x & Hx & Hfx). exists x.
    split; [by right|done].
  - intros _. exists a. split; [by left|done].
Qed.

Lemma forallb_Forall {A} (f : A -> bool) (l : list A) :
  forallb f l = true -> Forall (fun x => f x = true) l.
Proof.
  intros H. apply Forall_forall. intros x Hx.
  apply (proj1 (forallb_forall f l) H), list_elem_of_In, Hx.
Qed.

(** X5. A text that is not empty and no longer than the field limit of the
    reader always gives the reader a header, and the reader never fails on
    it. On such a text [processData] returns a table exactly when every
    data row has at least three fields, and raises [IndexError]
    otherwise. *)
Theorem X5_short_text_returns_or_IndexError csvData :
  (N.of_nat (String.length csvData) <= field_limit)%N ->
  csvData <> "" ->
  exists header data,
    csv_reader (splitlines csvData) = (header :: data, None)
    /\ if forallb has_three_fields data
       then exists table, outcome (processData csvData) = Return table
       else outcome (processData csvData) = Raise IndexError.
Proof.
  intros Hlen Hdata.
  destruct (csv_reader_ok csvData Hlen) as ([|header data] & Hreader & Hne);
    [by destruct (Hne Hdata)|].
  exists header, data. split; [exact Hreader|].
  destruct (forallb has_three_fields data) eqn:E.
  - apply forallb_Forall in E.
    rewrite (processData_three _ _ _ Hreader E). eauto.
  - apply forallb_false_elem in E as (row & Hin & Hrow).
    destruct (first_short_row _ _ Hin Hrow)
      as (pre & short & post & -> & Hpre & Hshort).
    rewrite (processData_rows _ _ _ _ Hreader).
    rewrite (processRows_short _ _ _ _ _ Hpre Hshort). reflexivity.
Qed.

Lemma X5_witness :
  exists header data,
    csv_reader (splitlines short_row_csv) = (header :: data, None)
    /\ if forallb has_three_fields data
       then exists table, outcome (processData short_row_csv) = Return table
       else outcome (processData short_row_csv) = Raise IndexError.
Proof.
  apply (X5_short_text_returns_or_IndexError short_row_csv).
  - vm_compute. discriminate.
  - discriminate.
Defined.

(** X6. A text of one line only, within the field limit, is all header:
    [processData] returns the empty table and logs nothing, whatever the
    line holds. *)
Theorem X6_header_only_gives_empty_table csvData line :
  splitlines csvData = [line] ->
  (N.of_nat (String.length csvData) <= field_limit)%N ->
  processData csvData = ([], Return ∅).
Proof.
  intros Hlines Hlen.
  destruct (splitlines_from_lines csvData "" eq_refl) as [H1 H2].
  fold (splitlines csvData) in H1, H2. rewrite Hlines in H1, H2.
  apply Forall_cons in H1 as [Hline _].
  unfold total_length in H2. cbn in H2.
  destruct (process_line_ok line parse_reset Hline) as (self' & E & Hst & _);
    [discriminate|cbn; lia|].
  unfold processData, csv_reader. rewrite Hlines. cbn [reader_rows].
  rewrite E. destruct Hst as [Hst|Hst]; rewrite Hst; cbn; [reflexivity|].
  rewrite orb_true_r. reflexivity.
Qed.

Lemma X6_witness : processData "id,name,birthday" = ([], Return ∅).
Proof.
  apply (X6_header_only_gives_empty_table _ "id,name,birthday").
  - reflexivity.
  - vm_compute. discriminate.
Defined.

(** ** The line feed at the end of the text *)

Lemma ends_in_linebreak_cons (c c' : ascii) (s : string) :
  ends_in_linebreak (String c (String c' s)) = ends_in_linebreak (String c' s).
Proof. reflexivity. Qed.

Lemma splitlines_from_LF (s : string) :
  forall cur,
    ends_in_linebreak s = false -> s <> "" \/ cur <> "" ->
    splitlines_from cur (s +:+ LF) = splitlines_from cur s.
Proof.
  induction s as [s IH] using string_length_ind.
  intros cur Hend Hne. destruct s as [|c s].
  - destruct Hne as [|Hcur]; [done|]. destruct cur; [done|reflexivity].
  - rewrite append_cons. cbn [splitlines_from].
    destruct (is_linebreak c) eqn:Hc.
    + destruct s as [|c' s]; [cbn in Hend; congruence|].
      rewrite ends_in_linebreak_cons in Hend.
      assert (Hrec : splitlines_from "" (String c' s +:+ LF)
                     = splitlines_from "" (String c' s)).
      { apply IH; [cbn; lia|exact Hend|by left]. }
      destruct (ord c =? 13)%N; [|by rewrite Hrec].
      rewrite append_cons. destruct (ord c' =? 10)%N eqn:Hc'.
      * f_equal. destruct s as [|c'' s].
        { cbn in Hend. unfold is_linebreak, in_range in Hend.
          apply N.eqb_eq in Hc'. rewrite Hc' in Hend. discriminate. }
        rewrite ends_in_linebreak_cons in Hend.
        apply IH; [cbn; lia|exact Hend|by left].
      * rewrite <- append_cons, Hrec. reflexivity.
    + apply IH; [cbn; lia| |right; by destruct cur].
      destruct s as [|c' s]; [reflexivity|].
      by rewrite ends_in_linebreak_cons in Hend.
Qed.

(** X7. The line feed after the last line is optional: a text that is not
    empty and does not end in a line boundary gives the same table, the
    same log and the same failure with a line feed added at its end. *)
Theorem X7_final_line_feed_is_optional csvData :
  csvData <> "" -> ends_in_linebreak csvData = false ->
  processData (csvData +:+ LF) = processData csvData.
Proof.
  intros Hne Hend. unfold processData, splitlines.
  rewrite splitlines_from_LF by auto. reflexivity.
Qed.

Lemma X7_witness :
  processData ("id,name" +:+ LF +:+ "1,Alice,15/06/1990" +:+ LF)
  = processData ("id,name" +:+ LF +:+ "1,Alice,15/06/1990").
Proof.
  apply (X7_final_line_feed_is_optional
           ("id,name" +:+ LF +:+ "1,Alice,15/06/1990")).
  - discriminate.
  - reflexivity.
Defined.

(** ** The reader on rows of plain fields *)

Lemma is_plain_field_cons (c : ascii) (f : string) :
  is_plain_field (String c f)
  = negb (is_char delimiter c) && negb (is_char quotechar c)
    && negb (is_linebreak c) && is_plain_field f.
Proof. reflexivity. Qed.

Lemma is_plain_one_line (f : string) :
  is_plain_field f = true -> is_one_line f = true.
Proof.
  induction f as [|c f IH]; [reflexivity|].
  rewrite is_plain_field_cons, is_one_line_cons.
  intros H. repeat (apply andb_prop in H as [H ?]).
  rewrite IH by done. by destruct (is_linebreak c).
Qed.

Lemma join_fields_cons (f g : string) (row : list string) :
  join_fields (f :: g :: row) = f +:+ "," +:+ join_fields (g :: row).
Proof. reflexivity. Qed.

Lemma join_fields_one_line (row : list string) :
  Forall (fun f => is_plain_field f = true) row ->
  is_one_line (join_fields row) = true.
Proof.
  induction 1 as [|f row Hf _ IH]; [reflexivity|].
  destruct row as [|g row]; [by apply is_plain_one_line|].
  cbn [join_fields] in *.
  rewrite !is_one_line_app, IH, (is_plain_one_line f Hf). reflexivity.
Qed.

Lemma splitlines_from_line (line rest cur : string) :
  is_one_line line = true ->
  splitlines_from cur (line +:+ LF +:+ rest)
  = (cur +:+ line) :: splitlines_from "" rest.
Proof.
  revert cur. induction line as [|c line IH]; intros cur Hline.
  - rewrite append_nil_r. reflexivity.
  - rewrite is_one_line_cons in Hline. apply andb_prop in Hline as [Hc Hline].
    apply negb_true_iff in Hc.
    rewrite append_cons. cbn [splitlines_from]. rewrite Hc, IH by done.
    rewrite append_assoc. reflexivity.
Qed.

Lemma splitlines_unlines (lines : list string) :
  Forall (fun line => is_one_line line = true) lines ->
  splitlines (unlines lines) = lines.
Proof.
  unfold splitlines. induction 1 as [|line lines Hline _ IH]; [reflexivity|].
  cbn [unlines]. rewrite splitlines_from_line by done.
  rewrite IH. reflexivity.
Qed.

Lemma parse_process_char_plain self c :
  in_plain_state self ->
  is_plain_field (String c "") = true ->
  (N.of_nat (flen self) < field_limit)%N ->
  parse_process_char self (Some c)
  = Return {| fields := fields self;
              field := field self +:+ String c "";
              state := IN_FIELD |}.
Proof.
  intros Hst Hc Hlen. rewrite is_plain_field_cons in Hc.
  repeat (apply andb_prop in Hc as [Hc ?]).
  repeat match goal with
         | Hn : negb _ = true |- _ => apply negb_true_iff in Hn
         end.
  assert (Hnl : is_newline c = false) by by apply is_newline_linebreak.
  pose proof (parse_add_char_ok self c Hlen) as Hadd.
  pose proof (parse_add_char_ok (set_state START_FIELD self) c Hlen) as Hadd'.
  unfold parse_process_char, process_START_FIELD.
  destruct Hst as [E|[E|E]]; rewrite E;
    cbn [is_eol_or_newline is_some_char char_or_nul];
    rewrite ?Hnl;
    repeat match goal with
           | Hf : is_char _ c = false |- _ => rewrite Hf; clear Hf
           end;
    rewrite ?Hadd, ?Hadd'; cbn; rewrite ?E; reflexivity.
Qed.

Lemma process_line_plain (f rest : string) self :
  is_plain_field f = true -> in_plain_state self ->
  (N.of_nat (flen self + String.length f) <= field_limit)%N ->
  process_line self (f +:+ rest) = process_line (feed self f) rest.
Proof.
  revert self. induction f as [|c f IH]; intros self Hf Hst Hlen.
  - unfold feed. rewrite append_nil_r. by destruct self.
  - rewrite is_plain_field_cons in Hf. apply andb_prop in Hf as [Hc Hf].
    cbn [String.length] in Hlen.
    rewrite append_cons. cbn [process_line].
    rewrite parse_process_char_plain; [|done| |lia].
    2:{ rewrite is_plain_field_cons, Hc. reflexivity. }
    rewrite IH; [|done|right; by right|].
    2:{ unfold flen in *. cbn. rewrite length_append. cbn. lia. }
    f_equal. unfold feed. cbn. rewrite append_assoc.
    f_equal. by destruct f.
Qed.

Lemma process_line_plain_end (f : string) self :
  is_plain_field f = true -> in_plain_state self ->
  (N.of_nat (flen self + String.length f) <= field_limit)%N ->
  process_line self f = parse_process_char (feed self f) None.
Proof.
  intros Hf Hst Hlen.
  pose proof (process_line_plain f "" self Hf Hst Hlen) as H.
  rewrite append_nil_r in H. exact H.
Qed.

Lemma process_line_comma rest self :
  in_plain_state self ->
  process_line self ("," +:+ rest)
  = process_line {| fields := fields self ++ [field self];
                    field := "";
                    state := START_FIELD |} rest.
Proof.
  intros Hst. rewrite append_cons, append_nil. cbn [process_line].
  unfold parse_process_char, process_START_FIELD.
  cbn [is_eol_or_newline is_some_char].
  change (is_newline ",") with false.
  change (is_char quotechar ",") with false.
  change (is_char delimiter ",") with true.
  destruct Hst as [E|[E|E]]; rewrite E; cbn;
    unfold parse_save_field, set_state; cbn; rewrite ?E; reflexivity.
Qed.

(** A row of plain fields read from the start of a field. *)
Lemma process_line_fields row self :
  row <> [] ->
  Forall (fun f => is_plain_field f = true /\ within_limit f) row ->
  state self = START_FIELD -> field self = "" ->
  process_line self (join_fields row)
  = Return {| fields := fields self ++ row; field := "";
              state := START_RECORD |}.
Proof.
  intros Hne Hrow. revert self.
  induction Hrow as [|f row [Hf Hlen] _ IH]; intros self Hst Hfield; [done|].
  assert (Hplain : in_plain_state self) by (right; by left).
  assert (Hfeed : in_plain_state (feed self f)).
  { unfold in_plain_state, feed. destruct f; cbn; auto. }
  assert (Hbound : (N.of_nat (flen self + String.length f) <= field_limit)%N).
  { unfold flen, within_limit in *. rewrite Hfield. exact Hlen. }
  destruct row as [|g row].
  - cbn [join_fields]. rewrite process_line_plain_end by done.
    unfold parse_process_char, process_START_FIELD, feed.
    rewrite Hfield. destruct f; cbn; rewrite ?Hst; reflexivity.
  - rewrite join_fields_cons, process_line_plain by done.
    rewrite process_line_comma by done.
    rewrite IH; [|done|reflexivity|reflexivity].
    cbn. rewrite Hfield, <- app_assoc. reflexivity.
Qed.

(** A whole line: the row is read back, but for the row of one empty
    field, whose line is empty and reads as the row without fields. *)
Lemma process_line_row row :
  row <> [""] ->
  Forall (fun f => is_plain_field f = true /\ within_limit f) row ->
  process_line parse_reset (join_fields row)
  = Return {| fields := row; field := ""; state := START_RECORD |}.
Proof.
  intros Hne Hrow. destruct row as [|f row]; [reflexivity|].
  apply Forall_cons in Hrow as [[Hf Hlen] Hrow].
  assert (Hplain : in_plain_state parse_reset) by by left.
  destruct row as [|g row].
  - cbn [join_fields]. rewrite process_line_plain_end by done.
    destruct f; [done|reflexivity].
  - rewrite join_fields_cons, process_line_plain by done.
    rewrite process_line_comma
      by (unfold in_plain_state; destruct f; cbn; auto).
    rewrite process_line_fields; [|done|done|reflexivity|reflexivity].
    reflexivity.
Qed.

Lemma reader_rows_plain rows :
  Forall (fun row => row <> [""]
                     /\ Forall (fun f => is_plain_field f = true
                                         /\ within_limit f) row) rows ->
  reader_rows parse_reset (join_fields <$> rows) = (rows, None).
Proof.
  induction 1 as [|row rows [Hne Hrow] _ IH]; [reflexivity|].
  cbn [fmap list_fmap reader_rows].
  rewrite process_line_row by done. cbn.
  change (list_fmap _ _ join_fields rows) with (join_fields <$> rows).
  rewrite IH. reflexivity.
Qed.

(** X8. A table of plain fields (no comma, no quote, no line boundary, each
    within the field limit) written one row per line with commas between
    the fields is read back exactly, provided no row is the single empty
    field: [processData] drops the first row as the header and processes
    the others as they were written. *)
Theorem X8_plain_rows_are_read_back header data :
  Forall (fun row => row <> [""]
                     /\ Forall (fun f => is_plain_field f = true
                                         /\ within_limit f) row)
    (header :: data) ->
  csv_reader (splitlines (csv_text (header :: data))) = (header :: data, None)
  /\ processData (csv_text (header :: data)) = processRows 1 data ∅.
Proof.
  intros Hrows.
  assert (Hreader : csv_reader (splitlines (csv_text (header :: data)))
                    = (header :: data, None)).
  { unfold csv_text, csv_reader. rewrite splitlines_unlines.
    - apply reader_rows_plain, Hrows.
    - apply Forall_fmap. eapply Forall_impl; [exact Hrows|].
      intros row [_ Hrow]. apply join_fields_one_line.
      eapply Forall_impl; [exact Hrow|]. by intros f [Hf _]. }
  split; [exact Hreader|].
  rewrite (processData_rows _ _ _ _ Hreader). apply bind_ret_r.
Qed.

Lemma X8_witness :
  csv_reader (splitlines (csv_text
     [sample_header; ["1"; "Alice"; "15/06/1990"]; ["2"; ""; "x"; ""]]))
  = ([sample_header; ["1"; "Alice"; "15/06/1990"]; ["2"; ""; "x"; ""]], None)
  /\ processData (csv_text
       [sample_header; ["1"; "Alice"; "15/06/1990"]; ["2"; ""; "x"; ""]])
     = processRows 1 [["1"; "Alice"; "15/06/1990"]; ["2"; ""; "x"; ""]] ∅.
Proof.
  apply (X8_plain_rows_are_read_back sample_header
           [["1"; "Alice"; "15/06/1990"]; ["2"; ""; "x"; ""]]).
  repeat (constructor;
          [split; [discriminate|];
           repeat (constructor;
                   [split; [reflexivity|vm_compute; discriminate]|])|]);
    constructor.
Defined.

(** ** Canonical identifiers typed at the prompt *)

Lemma digits_string_uint (s : string) :
  forallb is_digit (list_ascii_of_string s) = true ->
  exists u, NilEmpty.string_of_uint u = s.
Proof.
  induction s as [|c s IH]; [by exists Nil|].
  cbn [list_ascii_of_string forallb]. intros [Hc Hs]%andb_prop.
  destruct (IH Hs) as [u <-].
  destruct c as [[] [] [] [] [] [] [] []]; try discriminate Hc;
    first [by exists (D0 u) | by exists (D1 u) | by exists (D2 u)
          | by exists (D3 u) | by exists (D4 u) | by exists (D5 u)
          | by exists (D6 u) | by exists (D7 u) | by exists (D8 u)
          | by exists (D9 u)].
Qed.

Lemma is_ascii_string_of_uint (u : uint) :
  is_ascii_string (NilEmpty.string_of_uint u) = true.
Proof. induction u; cbn; auto. Qed.

Lemma scan_digits_uint (l : uint) :
  forall prev acc digits,
    is_char "_" prev = false ->
    scan_digits prev (NilEmpty.string_of_uint l) (Z.pos acc) digits
    = Some (Z.pos (Pos.of_uint_acc l acc),
            (digits + N.of_nat (nb_digits l))%N, "").
Proof.
  induction l; intros prev acc digits Hprev;
    cbn [NilEmpty.string_of_uint scan_digits Pos.of_uint_acc nb_digits].
  1: { rewrite Hprev. do 3 f_equal. lia. }
  all: match goal with
       | |- context [is_digit ?c] => change (is_digit c) with true
       end.
  all: cbv iota.
  all: match goal with
       | |- scan_digits ?c _ ?v ?d
            = Some (Z.pos (Pos.of_uint_acc _ ?a), _, _) =>
           replace v with (Z.pos a) by (unfold digit_value; cbn; lia);
           rewrite IHl by reflexivity
       end.
  all: do 3 f_equal; lia.
Qed.

Lemma canonical_uint (s : string) :
  is_canonical_id s = true ->
  exists u, NilEmpty.string_of_uint u = s /\ head_nonzero u.
Proof.
  destruct s as [|c s]; [discriminate|]. cbn [is_canonical_id].
  intros [Hc Hs]%andb_prop.
  destruct (digits_string_uint (String c s)) as [u Hu].
  { cbn [list_ascii_of_string forallb]. rewrite Hs, andb_true_r.
    unfold is_digit, in_range in *. apply andb_prop in Hc as [H1 H2].
    apply N.leb_le in H1, H2. apply andb_true_intro.
    split; apply N.leb_le; lia. }
  exists u. split; [exact Hu|].
  destruct u; try exact I; cbn in Hu; [discriminate|].
  injection Hu as <- _. discriminate Hc.
Qed.

Lemma int_of_uint (u : uint) :
  head_nonzero u ->
  (N.of_nat (nb_digits u) <= int_max_str_digits)%N ->
  exists p,
    int_ (NilEmpty.string_of_uint u) = Return (Z.pos p)
    /\ str (Z.pos p) = NilEmpty.string_of_uint u.
Proof.
  intros Hhead Hlen.
  assert (Hstr : forall p, Pos.of_uint u = Npos p ->
                   str (Z.pos p) = NilEmpty.string_of_uint u).
  { intros p Hp. unfold str. cbn [Z.to_int NilEmpty.string_of_int].
    change (Pos.to_uint p) with (N.to_uint (Npos p)).
    rewrite <- Hp, DecimalPos.Unsigned.to_of. by destruct u. }
  unfold int_, TransformDecimalAndSpaceToASCII.
  rewrite is_ascii_string_of_uint.
  destruct u as [|l|l|l|l|l|l|l|l|l|l]; try done;
    cbn [NilEmpty.string_of_uint skip_spaces nb_digits] in *;
    match goal with
    | |- context [Py_ISSPACE ?c] => change (Py_ISSPACE c) with false
    end;
    cbv iota; cbn [scan_digits];
    match goal with
    | |- context [is_digit ?c] => change (is_digit c) with true
    end;
    cbv iota;
    match goal with
    | |- context [scan_digits ?c _ ?v ?d] =>
        change v with (Z.pos (Z.to_pos v))
    end;
    rewrite scan_digits_uint by reflexivity;
    match goal with
    | |- context [(?d =? 0)%N] =>
        destruct (N.eqb_spec d 0) as [|_]; [lia|];
        destruct (N.ltb_spec int_max_str_digits d) as [|_]; [lia|]
    end;
    cbn [skip_spaces]; eexists; (split; [reflexivity|]);
    apply Hstr; reflexivity.
Qed.

(** A canonical identifier within the digit limit is read by [int] as a
    positive integer that [str] writes back as the identifier. *)
Lemma int_canonical (s : string) :
  is_canonical_id s = true ->
  (N.of_nat (String.length s) <= int_max_str_digits)%N ->
  exists n, int_ s = Return n /\ 0 < n /\ str n = s.
Proof.
  intros Hs Hlen. destruct (canonical_uint s Hs) as (u & <- & Hhead).
  rewrite string_of_uint_length in Hlen.
  destruct (int_of_uint u Hhead Hlen) as (p & H1 & H2).
  exists (Z.pos p). split; [exact H1|]. split; [lia|exact H2].
Qed.

(** ** The key of a lookup *)






(** ** The turns of the prompt loop *)

Section turns.
Context (personData : gmap string person).

Lemma main_loop_body_turn input :
  exists line,
    main_loop_body personData input
    = ([Print line],
       Return (if is_sentinel input then Terminated else Prompting)).
Proof.
  unfold is_sentinel. destruct (int_ input) as [n|e] eqn:E.
  - destruct (Z.leb_spec n 0).
    + rewrite (main_loop_body_exit _ _ _ E) by lia. eauto.
    + rewrite (main_loop_body_lookup _ _ _ E) by lia.
      destruct (displayPerson_prints personData (str n)) as [line ->]. eauto.
  - rewrite main_loop_body_invalid by congruence. eauto.
Qed.

Lemma main_loop_cons input rest :
  exists line,
    main_loop_body personData input
    = ([Print line],
       Return (if is_sentinel input then Terminated else Prompting))
    /\ main_loop personData (input :: rest)
       = if is_sentinel input
         then ([Prompt prompt_text; Print line], Return tt)
         else (Prompt prompt_text :: Print line
                 :: trace (main_loop personData rest),
               outcome (main_loop personData rest)).
Proof.
  destruct (main_loop_body_turn input) as [line Hbody].
  exists line. split; [exact Hbody|].
  cbn [main_loop]. rewrite Hbody.
  destruct (is_sentinel input); [reflexivity|].
  destruct (main_loop personData rest). reflexivity.
Qed.

Lemma main_loop_outcome stdin :
  outcome (main_loop personData stdin)
  = if existsb is_sentinel stdin then Return tt else Raise EOFError.
Proof.
  induction stdin as [|input rest IH]; [reflexivity|].
  destruct (main_loop_cons input rest) as (line & _ & ->).
  cbn [existsb]. destruct (is_sentinel input); [reflexivity|exact IH].
Qed.

(** X9. The prompt loop reads the standard input up to the first line that
    [int] reads as an integer at most 0, and no further: it behaves as on
    the input cut after that line. It returns normally when there is such
    a line, and otherwise ends with the [EOFError] of [input] on the
    exhausted input. *)
Theorem X9_loop_stops_at_first_sentinel stdin :
  main_loop personData stdin = main_loop personData (lines_read stdin)
  /\ outcome (main_loop personData stdin)
     = if existsb is_sentinel stdin then Return tt else Raise EOFError.
Proof.
  split; [|apply main_loop_outcome].
  induction stdin as [|input rest IH]; [reflexivity|].
  cbn [lines_read].
  destruct (main_loop_cons input rest) as (line & Hbody & ->).
  destruct (is_sentinel input) eqn:E.
  - destruct (main_loop_cons input []) as (line' & Hbody' & ->).
    rewrite E. congruence.
  - destruct (main_loop_cons input (lines_read rest)) as (line' & Hbody' & ->).
    rewrite E, <- IH. congruence.
Qed.

(** X10. The trace of the prompt loop is, for every line read, the prompt
    followed by the one line that the turn prints, and a last prompt when
    the input runs out: the loop writes nothing to the log, and prints
    exactly one line per line read. *)
Theorem X10_loop_trace stdin :
  trace (main_loop personData stdin)
  = flat_map (fun line => Prompt prompt_text
                          :: trace (main_loop_body personData line))
      (lines_read stdin)
    ++ (if existsb is_sentinel stdin then [] else [Prompt prompt_text])
  /\ logged (trace (main_loop personData stdin)) = []
  /\ length (printed (trace (main_loop personData stdin)))
     = length (lines_read stdin).
Proof.
  induction stdin as [|input rest (IH1 & IH2 & IH3)]; [by repeat split|].
  destruct (main_loop_cons input rest) as (line & Hbody & ->).
  cbn [lines_read existsb]. destruct (is_sentinel input).
  - cbn [flat_map]. rewrite Hbody. by repeat split.
  - cbn [flat_map orb]. rewrite Hbody. cbn [trace fst app].
    split; [by rewrite IH1|]. split; [exact IH2|].
    unfold printed in *. cbn. by rewrite IH3.
Qed.

(** X11. A query that [int] reads as a positive integer whose canonical
    decimal form is not a key of the table prints the not-found line with
    that canonical form, not with the text typed, and the loop goes on. *)
Theorem X11_absent_key_message input n :
  int_ input = Return n -> 0 < n ->
  personData !! str n = None ->
  main_loop_body personData input
  = ([Print ("No person found with ID #" +:+ str n +:+ ".")],
     Return Prompting).
Proof.
  intros H Hn Hlookup. rewrite (main_loop_body_lookup _ _ _ H Hn).
  unfold displayPerson. rewrite Hlookup. reflexivity.
Qed.

Lemma main_loop_body_canonical id_ :
  is_canonical_id id_ = true ->
  (N.of_nat (String.length id_) <= int_max_str_digits)%N ->
  main_loop_body personData id_
  = (trace (displayPerson id_ personData), Return Prompting).
Proof.
  intros Hid Hlen. destruct (int_canonical id_ Hid Hlen) as (n & H & Hn & Hstr).
  rewrite (main_loop_body_lookup _ _ _ H Hn), Hstr. reflexivity.
Qed.

(** X12. A canonical identifier (a digit from 1 to 9, then digits, within
    the digit limit of [int]) typed as it stands looks up itself: when it
    is a key of the table the turn prints the line of its record, and when
    it is not, the not-found line with the identifier. *)
Theorem X12_canonical_id_is_retrievable id_ :
  is_canonical_id id_ = true ->
  (N.of_nat (String.length id_) <= int_max_str_digits)%N ->
  (forall name birthday,
     personData !! id_ = Some (name, birthday) ->
     main_loop_body personData id_
     = ([Print ("Person #" +:+ id_ +:+ " is " +:+ name
                +:+ " with a birthday of " +:+ strftime birthday +:+ ".")],
        Return Prompting))
  /\ (personData !! id_ = None ->
      main_loop_body personData id_
      = ([Print ("No person found with ID #" +:+ id_ +:+ ".")],
         Return Prompting)).
Proof.
  intros Hid Hlen. rewrite (main_loop_body_canonical _ Hid Hlen).
  unfold displayPerson. split.
  - intros name birthday ->. reflexivity.
  - intros ->. reflexivity.
Qed.

End turns.

Lemma X11_witness :
  main_loop_body sample_table "007"
  = ([Print ("No person found with ID #" +:+ str 7 +:+ ".")],
     Return Prompting).
Proof.
  apply (X11_absent_key_message sample_table "007" 7).
  - vm_compute. reflexivity.
  - lia.
  - vm_compute. reflexivity.
Defined.

Lemma X12_witness :
  (forall name birthday,
     sample_table !! "1" = Some (name, birthday) ->
     main_loop_body sample_table "1"
     = ([Print ("Person #" +:+ "1" +:+ " is " +:+ name
                +:+ " with a birthday of " +:+ strftime birthday +:+ ".")],
        Return Prompting))
  /\ (sample_table !! "1" = None ->
      main_loop_body sample_table "1"
      = ([Print ("No person found with ID #" +:+ "1" +:+ ".")],
         Return Prompting)).
Proof.
  apply (X12_canonical_id_is_retrievable sample_table "1").
  - reflexivity.
  - vm_compute. discriminate.
Defined.

(** ** [main] *)

Lemma main_download_failed urlopen url stdin e :
  urlopen url = Failed e ->
  main urlopen url stdin
  = ([banner url;
      Log ("Error downloading data from URL: " +:+ url +:+ " - "
           +:+ error_text e);
      Print ("Failed to process data: " +:+ error_text e)],
     Return tt).
Proof. intros H. unfold main, downloadData. rewrite H. reflexivity. Qed.

Lemma main_parse_failed urlopen url stdin csvData e :
  urlopen url = Body csvData ->
  outcome (processData csvData) = Raise e ->
  main urlopen url stdin
  = (banner url :: trace (processData csvData)
       ++ [Print ("Failed to process data: " +:+ exn_text e)],
     Return tt).
Proof.
  intros H He. unfold main, downloadData. rewrite H.
  destruct (processData csvData) as [t r]. cbn in He. subst r. reflexivity.
Qed.

Lemma main_parsed urlopen url stdin csvData t personData :
  urlopen url = Body csvData ->
  processData csvData = (t, Return personData) ->
  main urlopen url stdin
  = (banner url :: t ++ trace (main_loop personData stdin),
     outcome (main_loop personData stdin)).
Proof.
  intros H Hp. unfold main, downloadData. rewrite H, Hp.
  destruct (main_loop personData stdin). reflexivity.
Qed.

Lemma parse_process_char_eol_state self self' :
  parse_process_char self None = Return self' ->
  state self' = START_RECORD \/ state self' = IN_QUOTED_FIELD.
Proof.
  unfold parse_process_char, process_START_FIELD.
  destruct (state self) eqn:E; cbn; intros [= <-]; cbn; auto.
Qed.

Lemma process_line_end_state line self self' :
  process_line self line = Return self' ->
  state self' = START_RECORD \/ state self' = IN_QUOTED_FIELD.
Proof.
  revert self. induction line as [|c line IH]; intros self; cbn.
  - apply parse_process_char_eol_state.
  - destruct (parse_process_char self (Some c)); [apply IH|discriminate].
Qed.

(** The reader yields a row, or fails, as soon as it has a line. *)
Lemma reader_rows_nonempty lines self rows :
  lines <> [] \/ state self = IN_QUOTED_FIELD ->
  reader_rows self lines = (rows, None) -> rows <> [].
Proof.
  revert self rows. induction lines as [|line lines IH]; intros self rows Hne;
    cbn [reader_rows].
  - destruct Hne as [|Hst]; [done|]. rewrite Hst, orb_true_r.
    by intros [= <-].
  - destruct (process_line self line) as [self'|e] eqn:E; [|discriminate].
    destruct (process_line_end_state _ _ _ E) as [Hst|Hst]; rewrite Hst; cbn.
    + destruct (reader_rows parse_reset lines). by intros [= <- _].
    + apply IH. by right.
Qed.

Lemma processData_StopIteration csvData t :
  processData csvData = (t, Raise StopIteration) -> csvData = "".
Proof.
  unfold processData.
  destruct (csv_reader (splitlines csvData)) as [[|header data] failure] eqn:R.
  - destruct failure as [e|].
    + intros [= _ ->]. apply reader_rows_raises in R. discriminate.
    + intros _. destruct (splitlines csvData) as [|line lines] eqn:S.
      * by apply splitlines_from_nil in S as [_ ->].
      * apply reader_rows_nonempty in R; [done|by left].
  - destruct (processRows 1 data ∅) as [t' [d|e']] eqn:P.
    + rewrite bind_returns. destruct failure as [e|]; [|discriminate].
      intros [= _ ->]. apply reader_rows_raises in R. discriminate.
    + intros [= _ ->]. by apply processRows_raises in P.
Qed.

Lemma prompts_app (t1 t2 : list event) :
  prompts (t1 ++ t2) = (prompts t1 + prompts t2)%nat.
Proof. unfold prompts. rewrite List.filter_app. apply length_app. Qed.

Lemma prompts_is_log (t : list event) : Forall is_log t -> prompts t = 0%nat.
Proof. induction 1 as [|ev t [m ->] _ IH]; [reflexivity|exact IH]. Qed.

(** X13. When the download fails, [main] writes one entry to the log, with
    the URL and the text of the exception, prints that the data could not
    be processed, with the same text, and returns: it never prompts and
    reads nothing from the standard input. *)
Theorem X13_download_failure_ends_main urlopen url stdin e :
  urlopen url = Failed e ->
  main urlopen url stdin
  = ([Print ("Running main with URL = " +:+ url +:+ "...");
      Log ("Error downloading data from URL: " +:+ url +:+ " - "
           +:+ error_text e);
      Print ("Failed to process data: " +:+ error_text e)],
     Return tt)
  /\ main urlopen url stdin = main urlopen url [].
Proof.
  intros H. rewrite !(main_download_failed _ _ _ _ H). by split.
Qed.

Lemma X13_witness :
  main unreachable "http://example.org/people.csv" ["1"; "0"]
  = ([Print ("Running main with URL = " +:+ "http://example.org/people.csv"
             +:+ "...");
      Log ("Error downloading data from URL: "
           +:+ "http://example.org/people.csv" +:+ " - "
           +:+ "<urlopen error timed out>");
      Print ("Failed to process data: " +:+ "<urlopen error timed out>")],
     Return tt)
  /\ main unreachable "http://example.org/people.csv" ["1"; "0"]
     = main unreachable "http://example.org/people.csv" [].
Proof.
  apply (X13_download_failure_ends_main unreachable
           "http://example.org/people.csv" ["1"; "0"]
           (mkError "URLError" "<urlopen error timed out>")).
  reflexivity.
Defined.

(** X14. When the download succeeds and [processData] fails, [main] prints
    that the data could not be processed after what [processData] logged,
    and returns without prompting. On an empty download the message has no
    text after the colon, since the [StopIteration] of the missing header
    has none; a row with fewer than three fields gives the text of
    [IndexError]. *)
Theorem X14_parse_failure_ends_main urlopen url stdin csvData e :
  urlopen url = Body csvData ->
  outcome (processData csvData) = Raise e ->
  main urlopen url stdin
  = (Print ("Running main with URL = " +:+ url +:+ "...")
       :: trace (processData csvData)
       ++ [Print ("Failed to process data: " +:+ exn_text e)],
     Return tt)
  /\ prompts (trace (main urlopen url stdin)) = 0%nat
  /\ (csvData = "" ->
      main urlopen url stdin
      = ([Print ("Running main with URL = " +:+ url +:+ "...");
          Print "Failed to process data: "], Return tt))
  /\ (e = IndexError \/ (e = StopIteration /\ csvData = "") \/ e = CsvError).
Proof.
  intros H He. pose proof (main_parse_failed _ _ stdin _ _ H He) as Hmain.
  split; [exact Hmain|]. split; [|split].
  - rewrite Hmain. unfold trace at 1. cbn [fst].
    change (banner url :: ?t) with ([banner url] ++ t).
    rewrite !prompts_app, (prompts_is_log _ (processData_is_log csvData)).
    reflexivity.
  - intros ->. rewrite (main_parse_failed _ _ stdin "" StopIteration H);
      reflexivity.
  - destruct (processData csvData) as [t r] eqn:E. cbn in He. subst r.
    destruct (processData_raises _ _ _ E) as [->|[->| ->]]; auto.
    right. left. split; [reflexivity|].
    eapply processData_StopIteration, E.
Qed.

Lemma X14_witness :
  main (serve short_row_csv) "u" ["1"]
  = (Print ("Running main with URL = " +:+ "u" +:+ "...")
       :: trace (processData short_row_csv)
       ++ [Print ("Failed to process data: " +:+ exn_text IndexError)],
     Return tt)
  /\ prompts (trace (main (serve short_row_csv) "u" ["1"])) = 0%nat
  /\ (short_row_csv = "" ->
      main (serve short_row_csv) "u" ["1"]
      = ([Print ("Running main with URL = " +:+ "u" +:+ "...");
          Print "Failed to process data: "], Return tt))
  /\ (IndexError = IndexError
      \/ (IndexError = StopIteration /\ short_row_csv = "")
      \/ IndexError = CsvError).
Proof.
  apply (X14_parse_failure_ends_main (serve short_row_csv) "u" ["1"]
           short_row_csv IndexError).
  - reflexivity.
  - vm_compute. reflexivity.
Defined.

(** X15. The handler of [main] catches every failure of the download and of
    the parse: the only exception that leaves [main] is the [EOFError] of
    [input], and only after a successful download and parse, when no line
    of the standard input ends the loop. With such a line [main] always
    returns normally. *)
Theorem X15_main_raises_only_EOFError urlopen url stdin :
  (outcome (main urlopen url stdin) = Return tt
   \/ (outcome (main urlopen url stdin) = Raise EOFError
       /\ existsb is_sentinel stdin = false
       /\ exists csvData t personData,
            urlopen url = Body csvData
            /\ processData csvData = (t, Return personData)))
  /\ (existsb is_sentinel stdin = true ->
      outcome (main urlopen url stdin) = Return tt).
Proof.
  assert (Hcases :
    outcome (main urlopen url stdin) = Return tt
    \/ (outcome (main urlopen url stdin) = Raise EOFError
        /\ existsb is_sentinel stdin = false
        /\ exists csvData t personData,
             urlopen url = Body csvData
             /\ processData csvData = (t, Return personData))).
  { destruct (urlopen url) as [csvData|e] eqn:H.
    - destruct (processData csvData) as [t [personData|e]] eqn:Hp.
      + rewrite (main_parsed _ _ _ _ _ _ H Hp). cbn [outcome snd].
        fold (outcome (main_loop personData stdin)).
        rewrite main_loop_outcome.
        destruct (existsb is_sentinel stdin); [by left|].
        right. eauto 10.
      + left. rewrite (main_parse_failed _ _ _ csvData e H); [reflexivity|].
        by rewrite Hp.
    - left. by rewrite (main_download_failed _ _ _ _ H). }
  split; [exact Hcases|].
  intros Hs. destruct Hcases as [|(_ & Hn & _)]; [done|congruence].
Qed.

Lemma X15_witness :
  outcome (main (serve sample_csv) "u" ["1"; "abc"; "0"; "2"]) = Return tt.
Proof.
  apply (proj2 (X15_main_raises_only_EOFError (serve sample_csv) "u"
                  ["1"; "abc"; "0"; "2"])).
  vm_compute. reflexivity.
Defined.

(** X16. End to end: when the download gives a table of plain fields whose
    data rows all have three fields and distinct identifiers, a data row
    with a canonical identifier and a date that parses is retrieved by
    typing its identifier: [main], on the identifier and then 0, prints its
    banner, then (after what the parse logged) the line of that record with
    its date as [strftime] renders it, then the exit line, and returns. *)
Theorem X16_served_record_is_retrieved
    urlopen url header data id_ name text rest birthday :
  urlopen url = Body (csv_text (header :: data)) ->
  Forall (fun row => row <> [""]
                     /\ Forall (fun f => is_plain_field f = true
                                         /\ within_limit f) row)
    (header :: data) ->
  Forall (fun row => has_three_fields row = true) data ->
  NoDup (row_id <$> data) ->
  (id_ :: name :: text :: rest) ∈ data ->
  strptime text = Return birthday ->
  is_canonical_id id_ = true ->
  (N.of_nat (String.length id_) <= int_max_str_digits)%N ->
  main urlopen url [id_; "0"]
  = (Print ("Running main with URL = " +:+ url +:+ "...")
       :: trace (processData (csv_text (header :: data)))
       ++ [Prompt prompt_text;
           Print ("Person #" +:+ id_ +:+ " is " +:+ name
                  +:+ " with a birthday of " +:+ strftime birthday +:+ ".");
           Prompt prompt_text;
           Print "Exiting the program."],
     Return tt).
Proof.
  intros Hurl Hplain Hthree Hnodup Hin Hdate Hid Hlen.
  assert (Hreader : csv_reader (splitlines (csv_text (header :: data)))
                    = (header :: data, None)).
  { unfold csv_text, csv_reader. rewrite splitlines_unlines.
    - apply reader_rows_plain, Hplain.
    - apply Forall_fmap. eapply Forall_impl; [exact Hplain|].
      intros row [_ Hrow]. apply join_fields_one_line.
      eapply Forall_impl; [exact Hrow|]. by intros f [Hf _]. }
  pose proof (processData_three _ _ _ Hreader Hthree) as Hparsed.
  assert (Hlookup : rows_table data ∅ !! id_ = Some (name, birthday)).
  { apply rows_table_lookup_iff; [done|].
    exists (id_ :: name :: text :: rest). split; [done|].
    cbn. rewrite Hdate. reflexivity. }
  rewrite (main_parsed _ _ _ _ _ _ Hurl Hparsed), Hparsed.
  cbn [trace fst main_loop].
  rewrite (main_loop_body_canonical _ _ Hid Hlen).
  unfold displayPerson. rewrite Hlookup. reflexivity.
Qed.

Lemma X16_witness :
  main (serve (csv_text [sample_header; ["1"; "Alice"; "15/06/1990"];
                         ["2"; "Bob"; "31/13/2000"]]))
       "u" ["1"; "0"]
  = (Print ("Running main with URL = " +:+ "u" +:+ "...")
       :: trace (processData
                   (csv_text [sample_header; ["1"; "Alice"; "15/06/1990"];
                              ["2"; "Bob"; "31/13/2000"]]))
       ++ [Prompt prompt_text;
           Print ("Person #" +:+ "1" +:+ " is " +:+ "Alice"
                  +:+ " with a birthday of " +:+ strftime (mkDate 1990 6 15)
                  +:+ ".");
           Prompt prompt_text;
           Print "Exiting the program."],
     Return tt).
Proof.
  apply (X16_served_record_is_retrieved _ "u" sample_header
           [["1"; "Alice"; "15/06/1990"]; ["2"; "Bob"; "31/13/2000"]]
           "1" "Alice" "15/06/1990" [] (mkDate 1990 6 15)).
  - reflexivity.
  - repeat (constructor;
            [split; [discriminate|];
             repeat (constructor;
                     [split; [reflexivity|vm_compute; discriminate]|])|]);
      constructor.
  - repeat constructor.
  - apply (bool_decide_unpack _). vm_compute. exact I.
  - apply elem_of_cons. by left.
  - vm_compute. reflexivity.
  - reflexivity.
  - vm_compute. discriminate.
Defined.
